(** * video-proxy: the request-forwarding pipeline of [proxy.py]

    A shallow embedding of [proxy_handler] (proxy.py, lines 37-196) and of
    the Python and aiohttp primitives it relies on, followed by the
    properties of the handler.

    Conventions of the embedding.
    - A Python [str] is a Rocq [string]; header names and values are
      sequences of 8-bit characters, and case folding is ASCII case folding.
    - [request.headers], [response.headers] and [resp.headers] are
      case-insensitive multidicts: ordered association lists whose lookup
      compares lower-cased names and returns the first match.
    - The [headers] dict sent upstream is a plain Python dict: a [gmap].
    - The handler talks to the outside through awaits that may raise. The
      behaviour of the outside is a [world]; the handler is a function from
      the request and the world to a trace of effects and an outcome.
    - Exceptions follow Python 3.8 and later: [asyncio.CancelledError]
      derives from [BaseException], not from [Exception].
    - The body of the upstream answer is a finite list of chunks, possibly
      ended by an exception; leaving the two [async with] blocks does not
      raise. *)

From stdpp Require Import gmap strings list pretty.
From Stdlib Require Import ZArith Ascii Strings.Byte.
From Stdlib Require String.

Open Scope Z_scope.

#[local] Set Warnings "-clear-no-such-hyp,-register-all".

(** ** Python string primitives *)

Module Py.

(** [c.lower()] on one ASCII character. *)
Definition lower_ascii (c : ascii) : ascii :=
  let n := N_of_ascii c in
  if ((65 <=? n) && (n <=? 90))%N then ascii_of_N (n + 32) else c.

(** [s.lower()]. *)
Fixpoint lower (s : string) : string :=
  match s with
  | EmptyString => EmptyString
  | String c rest => String (lower_ascii c) (lower rest)
  end.

(** [s.startswith(p)]. *)
Fixpoint startswith (p s : string) : bool :=
  match p, s with
  | EmptyString, _ => true
  | String a p', String b s' => Ascii.eqb a b && startswith p' s'
  | String _ _, EmptyString => false
  end.

(** [needle in hay] on strings. *)
Fixpoint str_in (needle hay : string) : bool :=
  startswith needle hay ||
  match hay with
  | EmptyString => false
  | String _ rest => str_in needle rest
  end.

(** Truth value of a string: [bool(s)]. *)
Definition truthy (s : string) : bool := negb (String.eqb s "").

(** Truth value of an optional string ([None] is false). *)
Definition truthy_opt (o : option string) : bool :=
  match o with
  | None => false
  | Some s => truthy s
  end.

(** [f"{n}"] for an integer. *)
Definition str_of_int (n : Z) : string := pretty n.

(** [any(term in s for term in terms)]. *)
Definition any_in (terms : list string) (s : string) : bool :=
  existsb (fun term => str_in term s) terms.

End Py.

(** ** Percent decoding

    [urllib.parse.unquote] is library code. The handler is parameterised by
    it; [percent_decode] is the byte-level decoder used to run the handler
    on concrete requests. *)

Definition hex_digit (c : ascii) : option N :=
  let n := N_of_ascii c in
  if ((48 <=? n) && (n <=? 57))%N then Some (n - 48)%N
  else if ((65 <=? n) && (n <=? 70))%N then Some (n - 55)%N
  else if ((97 <=? n) && (n <=? 102))%N then Some (n - 87)%N
  else None.

Fixpoint percent_decode (s : string) : string :=
  match s with
  | EmptyString => EmptyString
  | String c tl =>
      match c, tl with
      | "%"%char, String a (String b rest) =>
          match hex_digit a, hex_digit b with
          | Some x, Some y => String (ascii_of_N (16 * x + y)) (percent_decode rest)
          | _, _ => String c (percent_decode tl)
          end
      | _, _ => String c (percent_decode tl)
      end
  end.

(** ** Multidicts *)

(** [multidict.MultiDict] with string keys: [request.query]. *)
Definition multidict := list (string * string).

(** [d.get(k)]: the first value stored under [k], [None] when absent. *)
Fixpoint md_get (k : string) (d : multidict) : option string :=
  match d with
  | [] => None
  | (k', v) :: rest => if String.eqb k k' then Some v else md_get k rest
  end.

(** [multidict.CIMultiDict]: keys are compared after case folding. *)
Definition cimultidict := list (string * string).

Definition ci_eqb (a b : string) : bool :=
  String.eqb (Py.lower a) (Py.lower b).

(** [d.get(k)]; it also decides [k in d] and gives [d[k]] when [k in d]. *)
Fixpoint ci_get (k : string) (d : cimultidict) : option string :=
  match d with
  | [] => None
  | (k', v) :: rest => if ci_eqb k k' then Some v else ci_get k rest
  end.

(** [d.get(k, default)]. *)
Definition ci_get_default (k default : string) (d : cimultidict) : string :=
  match ci_get k d with
  | Some v => v
  | None => default
  end.

(** Entries of [d] whose key is not [k]. *)
Definition ci_remove (k : string) (d : cimultidict) : cimultidict :=
  List.filter (fun kv => negb (ci_eqb k (fst kv))) d.

(** [d[k] = v]: the first entry stored under [k] is replaced in place and
    the later ones are dropped; without such an entry, [(k, v)] is
    appended. *)
Fixpoint ci_set (k v : string) (d : cimultidict) : cimultidict :=
  match d with
  | [] => [(k, v)]
  | (k', v') :: rest =>
      if ci_eqb k k' then (k, v) :: ci_remove k rest
      else (k', v') :: ci_set k v rest
  end.

(** No two names of the list are equal after case folding. *)
Fixpoint ci_distinct (names : list string) : bool :=
  match names with
  | [] => true
  | name :: rest =>
      forallb (fun other => negb (ci_eqb name other)) rest && ci_distinct rest
  end.

(** ** Configuration, requests and the outside world *)

(** The module-level configuration read from the environment (lines 19-20). *)
Record config := {
  UPSTREAM_PROXY_URL : string;
  USE_UPSTREAM : bool
}.

(** The parts of [aiohttp.web.Request] the handler reads. *)
Record request := {
  method : string;
  query : multidict;
  req_headers : cimultidict
}.

(** Python exceptions, by the classes the handler tells apart.
    [OtherException] is any other subclass of [Exception]
    ([asyncio.TimeoutError], [aiohttp.ClientError], ...);
    [OtherBaseException] is a [BaseException] outside [Exception]
    ([KeyboardInterrupt], [SystemExit]). *)
Inductive exn_class :=
  | ConnectionResetError
  | BrokenPipeError
  | CancelledError
  | OtherException
  | OtherBaseException.

Record exn := {
  exn_cls : exn_class;
  exn_str : string   (* str(e) *)
}.

(** [isinstance(e, Exception)]. *)
Definition is_Exception (e : exn) : bool :=
  match exn_cls e with
  | ConnectionResetError | BrokenPipeError | OtherException => true
  | CancelledError | OtherBaseException => false
  end.

(** [isinstance(e, (ConnectionResetError, BrokenPipeError,
    asyncio.CancelledError))]. *)
Definition is_disconnect (e : exn) : bool :=
  match exn_cls e with
  | ConnectionResetError | BrokenPipeError | CancelledError => true
  | OtherException | OtherBaseException => false
  end.

Definition bytes := list byte.

(** One step of [response.content.iter_chunked(8192)]: the next chunk, or
    an exception raised while waiting for it. The end of the list is the
    end of the stream. *)
Inductive read_event :=
  | Chunk (data : bytes)
  | ReadRaises (e : exn).

(** The parts of [aiohttp.ClientResponse] the handler reads. *)
Record upstream_response := {
  status : Z;
  reason : string;
  headers : cimultidict;
  content : list read_event
}.

Inductive http_method := GET | HEAD.

(** The [ssl] argument of [aiohttp.TCPConnector]: [False] switches
    certificate verification off, [ssl_context] is the default context with
    the system certificates (lines 34-35). *)
Inductive ssl_setting :=
  | ssl_False
  | ssl_context.

(** Everything that determines the outbound request (lines 90-102). *)
Record fetch_args := {
  f_method : http_method;
  f_url : string;
  f_proxy : option string;
  f_ssl : ssl_setting;
  f_timeout_total : Z;
  f_headers : gmap string string;
  f_allow_redirects : bool
}.

(** What the outside does at each await of the handler. *)
Record world := {
  (* creating the connector and entering the session (lines 90-97) *)
  session_raises : option exn;
  (* [async with method(decoded_url, ...)]: an exception or a response *)
  upstream : exn + upstream_response;
  (* [await resp.prepare(request)] *)
  prepare_raises : option exn;
  (* the n-th [await resp.write(chunk)], counted from 0 *)
  write_raises : nat -> option exn;
  (* [await resp.write_eof()] *)
  write_eof_raises : option exn
}.

(** ** Responses and effects *)

(** A JSON object whose values are strings, in the order of the dict
    literal. *)
Definition json_object := list (string * string).

(** The three kinds of response the handler builds. *)
Inductive web_response :=
  | json_response (payload : json_object) (code : Z)
  | Response (code : Z)
  | StreamResponse (code : Z) (hdrs : cimultidict).

(** Observable effects, in order. [Prepare], [Write] and [WriteEof] are
    recorded when the await completed; [Fetch] when the request is
    issued. *)
Inductive event :=
  | LogInfo (msg : string)
  | LogDebug (msg : string)
  | Fetch (a : fetch_args)
  | Prepare (code : Z) (hdrs : cimultidict)
  | Write (chunk : bytes)
  | WriteEof.

Inductive result (A : Type) :=
  | Ok (a : A)
  | Raised (e : exn).
Arguments Ok {A} a.
Arguments Raised {A} e.

(** Computations of the handler: the effects so far, and a value or the
    exception in flight. *)
Definition M (A : Type) : Type := list event * result A.

#[global] Instance M_ret : MRet M := fun A a => ([], Ok a).

#[global] Instance M_bind : MBind M := fun A B k m =>
  match m with
  | (t, Ok a) => let (t', r) := k a in (t ++ t', r)
  | (t, Raised e) => (t, Raised e)
  end.

Definition emit (ev : event) : M unit := ([ev], Ok tt).

Definition raise {A : Type} (e : exn) : M A := ([], Raised e).

(** An await whose effect [ev] happens unless the outside raises. *)
Definition await (ev : event) (o : option exn) : M unit :=
  match o with
  | Some e => raise e
  | None => emit ev
  end.

(** [when c m]: [if c: m]. *)
Definition when (c : bool) (m : M unit) : M unit :=
  if c then m else mret tt.

(** [try: m except ...]: the first clause whose class test accepts the
    exception handles it; with no such clause it propagates. *)
Fixpoint select_clause {A : Type} (clauses : list ((exn -> bool) * (exn -> M A)))
    (e : exn) : option (M A) :=
  match clauses with
  | [] => None
  | (test, handler) :: rest =>
      if test e then Some (handler e) else select_clause rest e
  end.

Definition try_except {A : Type} (m : M A)
    (clauses : list ((exn -> bool) * (exn -> M A))) : M A :=
  match m with
  | (t, Ok a) => (t, Ok a)
  | (t, Raised e) =>
      match select_clause clauses e with
      | Some (t', r) => (t ++ t', r)
      | None => (t, Raised e)
      end
  end.

(** [log_with_emoji] (lines 29-31) and [logger.debug]. *)
Definition log_with_emoji (emoji message : string) : M unit :=
  emit (LogInfo (emoji +:+ " " +:+ message)).

Definition logger_debug (message : string) : M unit :=
  emit (LogDebug message).

(** ** The environment and the health report *)

(** [os.getenv(name, default)] on the environment of the process. *)
Definition getenv (env : gmap string string) (name default : string) : string :=
  match env !! name with
  | Some value => value
  | None => default
  end.

(** The configuration of lines 19-20, as read from the environment. *)
Definition load_config (env : gmap string string) : config :=
  {| UPSTREAM_PROXY_URL :=
       getenv env "UPSTREAM_PROXY_URL" "http://192.168.1.79:3128";
     USE_UPSTREAM :=
       negb (String.eqb (Py.lower (getenv env "USE_UPSTREAM" "true")) "false") |}.

(** JSON values, for the nested dict of [health_handler]. *)
Inductive jvalue :=
  | JString (s : string)
  | JNumber (n : Z)
  | JBool (b : bool)
  | JNull
  | JObject (fields : list (string * jvalue)).

(** [web.json_response(data)]: the data and the status, 200 unless given. *)
Record json_reply := {
  jr_body : jvalue;
  jr_status : Z
}.

(** The chunks of a body up to its end or to the first failed read. *)
Fixpoint body_chunks (stream : list read_event) : list bytes :=
  match stream with
  | Chunk data :: rest => data :: body_chunks rest
  | _ => []
  end.

(** ** Sample configurations, requests and worlds *)

Definition cfg_upstream : config :=
  {| UPSTREAM_PROXY_URL := "http://192.168.1.79:3128"; USE_UPSTREAM := true |}.

Definition cfg_direct : config :=
  {| UPSTREAM_PROXY_URL := "http://192.168.1.79:3128"; USE_UPSTREAM := false |}.

(** [USE_UPSTREAM] left at its default with [UPSTREAM_PROXY_URL] set to the
    empty string in the environment. *)
Definition cfg_empty_proxy : config :=
  {| UPSTREAM_PROXY_URL := ""; USE_UPSTREAM := true |}.

Definition sample_target : string := "http%3A%2F%2Fexample.com%2Ffile.mp4".

Definition request_get : request :=
  {| method := "GET";
     query := [("url", sample_target)];
     req_headers := [("range", "bytes=0-1023"); ("Cookie", "session=1")] |}.

Definition request_head : request :=
  {| method := "HEAD";
     query := [("url", sample_target)];
     req_headers := [("User-Agent", "curl/8.0")] |}.

(** A caller that names its headers in other letter cases and repeats
    one. *)
Definition request_browser : request :=
  {| method := "GET";
     query := [("url", sample_target)];
     req_headers := [ ("Accept", "*/*");
                      ("user-agent", "VLC/3.0.20");
                      ("REFERER", "https://example.org/watch");
                      ("User-Agent", "second");
                      ("Cookie", "session=1") ] |}.

Definition request_without_url : request :=
  {| method := "GET"; query := [("uri", sample_target)]; req_headers := [] |}.

Definition sample_body : list read_event :=
  [ Chunk [Byte.x00; Byte.x01]; Chunk [Byte.x02]; Chunk [Byte.x03] ].

Definition response_206 : upstream_response :=
  {| status := 206;
     reason := "Partial Content";
     headers := [ ("Content-Range", "bytes 0-1023/2048");
                  ("Content-Length", "1024");
                  ("X-Cache", "HIT from proxy");
                  ("Server", "nginx") ];
     content := sample_body |}.

(** [response_206] with other diagnostic headers. *)
Definition response_206_miss : upstream_response :=
  {| status := 206;
     reason := "Partial Content";
     headers := [ ("Age", "12");
                  ("Content-Range", "bytes 0-1023/2048");
                  ("Content-Length", "1024");
                  ("X-Cache-Lookup", "MISS from proxy");
                  ("Server", "nginx") ];
     content := sample_body |}.

Definition response_404 : upstream_response :=
  {| status := 404;
     reason := "Not Found";
     headers := [("Content-Type", "text/html"); ("Content-Length", "3")];
     content := sample_body |}.

(** Nothing raises. *)
Definition world_ok (response : upstream_response) : world :=
  {| session_raises := None;
     upstream := inr response;
     prepare_raises := None;
     write_raises := fun _ => None;
     write_eof_raises := None |}.

Definition connection_reset : exn :=
  {| exn_cls := ConnectionResetError;
     exn_str := "Cannot write to closing transport" |}.

(** The caller goes away after the first chunk. *)
Definition world_caller_gone : world :=
  {| session_raises := None;
     upstream := inr response_206;
     prepare_raises := None;
     write_raises := fun i => if Nat.eqb i 1 then Some connection_reset else None;
     write_eof_raises := None |}.

(** An [aiohttp.ClientConnectionError]: the upstream closed its side. *)
Definition connection_closed : exn :=
  {| exn_cls := OtherException; exn_str := "Connection closed" |}.

Definition response_cut_short : upstream_response :=
  {| status := 200;
     reason := "OK";
     headers := [("Content-Type", "video/mp4")];
     content := [Chunk [Byte.x00; Byte.x01]; ReadRaises connection_closed] |}.

(** An [aiohttp.ClientPayloadError]. *)
Definition payload_error : exn :=
  {| exn_cls := OtherException;
     exn_str := "Response payload is not completed" |}.

Definition response_bad_payload : upstream_response :=
  {| status := 200;
     reason := "OK";
     headers := [("Content-Type", "video/mp4")];
     content := [Chunk [Byte.x00; Byte.x01]; ReadRaises payload_error] |}.

(** The task of the handler is cancelled while the request is in flight. *)
Definition cancelled : exn :=
  {| exn_cls := CancelledError; exn_str := "" |}.

Definition world_cancelled : world :=
  {| session_raises := None;
     upstream := inl cancelled;
     prepare_raises := None;
     write_raises := fun _ => None;
     write_eof_raises := None |}.



(** The upstream proxy does not answer. *)
Definition proxy_unreachable : exn :=
  {| exn_cls := OtherException;
     exn_str := "Cannot connect to host 192.168.1.79:3128 ssl:False" |}.

Definition world_proxy_unreachable : world :=
  {| session_raises := None;
     upstream := inl proxy_unreachable;
     prepare_raises := None;
     write_raises := fun _ => None;
     write_eof_raises := None |}.

Definition response_200 : upstream_response :=
  {| status := 200; reason := "OK"; headers := []; content := [] |}.

(** The upstream repeats a header and sets a CORS header of its own. *)
Definition response_repeated_headers : upstream_response :=
  {| status := 200;
     reason := "OK";
     headers := [ ("Cache-Control", "no-store");
                  ("cache-control", "max-age=60");
                  ("Access-Control-Allow-Origin", "https://example.org") ];
     content := [] |}.

(** An environment that switches the upstream proxy off. *)
Definition env_direct : gmap string string :=
  {[ "USE_UPSTREAM" := "False" ]}.

(** ** The handler *)

Section Handler.

(** [urllib.parse.unquote]. *)
Variable unquote : string -> string.

(** The process-wide configuration. *)
Variable cfg : config.

(** The text shown for the target in the log (line 46). *)
Definition shown_target (target_url : option string) : string :=
  match target_url with
  | Some u =>
      if Py.truthy u && (100 <? String.length u)%nat
      then String.substring 0 100 u +:+ "..."
      else if Py.truthy u then u else "MISSING"
  | None => "MISSING"
  end.

(** The [headers] dict of lines 59-74. *)
Definition outbound_headers (req : request) : gmap string string :=
  let headers : gmap string string :=
    {[ "User-Agent" :=
         ci_get_default "User-Agent" "Mozilla/5.0 (compatible; HTTPProxy/1.0)"
           (req_headers req) ]} in
  let headers :=
    if USE_UPSTREAM cfg then <["Cache-Control" := "max-age=3600"]> headers
    else headers in
  let headers :=
    match ci_get "Range" (req_headers req) with
    | Some v => <["Range" := v]> headers
    | None => headers
    end in
  match ci_get "Referer" (req_headers req) with
  | Some v => <["Referer" := v]> headers
  | None => headers
  end.

(** [proxy] (line 80). *)
Definition proxy : option string :=
  if USE_UPSTREAM cfg then Some (UPSTREAM_PROXY_URL cfg) else None.

(** [connector_kwargs['ssl']] (lines 82-88). *)
Definition connector_ssl : ssl_setting :=
  if USE_UPSTREAM cfg && Py.truthy_opt proxy then ssl_False else ssl_context.

(** The request issued at line 102. *)
Definition fetch_of (req : request) (is_head_request : bool)
    (decoded_url : string) : fetch_args :=
  {| f_method := if is_head_request then HEAD else GET;
     f_url := decoded_url;
     f_proxy := proxy;
     f_ssl := connector_ssl;
     f_timeout_total := 30;
     f_headers := outbound_headers req;
     f_allow_redirects := true |}.

(** [headers_to_forward] (lines 113-117). *)
Definition headers_to_forward : list string :=
  [ "content-type"; "content-length"; "content-range";
    "accept-ranges"; "last-modified"; "etag";
    "cache-control"; "expires" ].

(** The loop of lines 119-121, on [resp.headers]. *)
Definition forward_headers (upstream_headers : cimultidict)
    (resp_headers : cimultidict) : cimultidict :=
  fold_left
    (fun acc header =>
       match ci_get header upstream_headers with
       | Some v => ci_set header v acc
       | None => acc
       end)
    headers_to_forward resp_headers.

(** Lines 124-127. *)
Definition add_cors_headers (resp_headers : cimultidict) : cimultidict :=
  ci_set "Access-Control-Expose-Headers"
    "Content-Range, Content-Length, Accept-Ranges"
    (ci_set "Access-Control-Allow-Methods" "GET, HEAD, OPTIONS"
       (ci_set "Access-Control-Allow-Headers"
          "Origin, X-Requested-With, Content-Type, Accept, Range, User-Agent"
          (ci_set "Access-Control-Allow-Origin" "*" resp_headers))).

(** [resp.headers] when [resp.prepare] is called: a fresh
    [StreamResponse] has no header of its own. *)
Definition outward_headers (response : upstream_response) : cimultidict :=
  add_cors_headers (forward_headers (headers response) []).

(** [a or b] on optional strings. *)
Definition py_or (a b : option string) : option string :=
  if Py.truthy_opt a then a else b.

(** [cache_status] (lines 130-133). *)
Definition cache_status (response : upstream_response) : string :=
  let x_cache :=
    py_or (ci_get "x-cache" (headers response))
          (ci_get "x-cache-lookup" (headers response)) in
  match x_cache with
  | Some x =>
      if Py.truthy x
      then (if Py.str_in "HIT" x then "🎯 CACHE HIT" else "❄️ CACHE MISS")
      else "🔍 Cache status unknown"
  | None => "🔍 Cache status unknown"
  end.

(** The log lines of lines 136-150. *)
Definition log_response_info (response : upstream_response) : M unit :=
  log_with_emoji "✅"
    ("Response: " +:+ Py.str_of_int (status response) +:+ " " +:+ reason response);;
  log_with_emoji "📝"
    ("Content-Type: " +:+ ci_get_default "content-type" "unknown" (headers response));;
  log_with_emoji "📏"
    ("Content-Length: " +:+ ci_get_default "content-length" "unknown" (headers response));;
  when (USE_UPSTREAM cfg) (log_with_emoji "🔄" (cache_status response));;
  match ci_get "content-range" (headers response) with
  | Some v => log_with_emoji "📊" ("Content-Range: " +:+ v)
  | None => mret tt
  end;;
  match ci_get "age" (headers response) with
  | Some v => log_with_emoji "⏰" ("Cache Age: " +:+ v +:+ " seconds")
  | None => mret tt
  end;;
  match ci_get "x-cache" (headers response) with
  | Some v => log_with_emoji "🏷️" ("X-Cache: " +:+ v)
  | None => mret tt
  end.

(** The loop of lines 158-159: the [n]-th write is the next one. *)
Fixpoint copy_chunks (w : world) (n : nat) (stream : list read_event) : M unit :=
  match stream with
  | [] => mret tt
  | ReadRaises e :: _ => raise e
  | Chunk data :: rest =>
      await (Write data) (write_raises w n);;
      copy_chunks w (S n) rest
  end.

(** The [try] statement of lines 157-168. [Some resp] is an early
    [return resp]; [None] falls through to line 170. *)
Definition stream_body (w : world) (resp : web_response)
    (response : upstream_response) : M (option web_response) :=
  try_except
    (copy_chunks w 0 (content response);; mret None)
    [ (is_disconnect,
       fun e =>
         logger_debug ("Client disconnected during streaming: " +:+ exn_str e);;
         mret (Some resp));
      (is_Exception,
       fun e =>
         if Py.str_in "closing transport" (Py.lower (exn_str e))
            || Py.str_in "connection" (Py.lower (exn_str e))
         then
           logger_debug ("Connection closed during streaming: " +:+ exn_str e);;
           mret (Some resp)
         else raise e) ].

(** The body of [async with method(...) as response] (lines 103-171). *)
Definition relay (w : world) (is_head_request : bool)
    (response : upstream_response) : M web_response :=
  if 400 <=? status response then
    log_with_emoji "❌"
      ("Upstream error: " +:+ Py.str_of_int (status response) +:+ " " +:+ reason response);;
    mret (json_response
            [("error",
              "Upstream error: " +:+ Py.str_of_int (status response)
                +:+ " " +:+ reason response)]
            (status response))
  else
    let resp := StreamResponse (status response) (outward_headers response) in
    log_response_info response;;
    await (Prepare (status response) (outward_headers response)) (prepare_raises w);;
    early ← (if negb is_head_request then stream_body w resp response
             else mret None);
    match early with
    | Some r => mret r
    | None => await WriteEof (write_eof_raises w);; mret resp
    end.

(** The handler of lines 173-192. *)
Definition on_proxy_error (proxy_error : exn) : M web_response :=
  if Py.any_in ["closing transport"; "connection reset"; "broken pipe"]
       (Py.lower (exn_str proxy_error))
  then
    logger_debug ("Connection closed during proxy operation: " +:+ exn_str proxy_error);;
    mret (Response 499)
  else
    log_with_emoji "❌" ("Proxy error: " +:+ exn_str proxy_error);;
    when (USE_UPSTREAM cfg
          && (Py.str_in "proxy" (Py.lower (exn_str proxy_error))
              || Py.str_in "connection" (Py.lower (exn_str proxy_error))))
      (log_with_emoji "🔄" "Upstream proxy connection failed - no fallback configured";;
       log_with_emoji "❌" "Request failed because upstream proxy is required but inaccessible");;
    mret (json_response
            [("error", "Proxy request failed");
             ("details", exn_str proxy_error);
             ("upstreamProxy",
              if USE_UPSTREAM cfg then UPSTREAM_PROXY_URL cfg else "disabled")]
            500).

(** The inner [try] statement (lines 99-192). *)
Definition fetch_and_relay (w : world) (req : request)
    (is_head_request : bool) (decoded_url : string) : M web_response :=
  try_except
    (emit (Fetch (fetch_of req is_head_request decoded_url));;
     match upstream w with
     | inl e => raise e
     | inr response => relay w is_head_request response
     end)
    [ (is_Exception, on_proxy_error) ].

(** [proxy_handler] (lines 37-196). *)
Definition proxy_handler (w : world) (req : request) : M web_response :=
  try_except
    (let is_head_request := String.eqb (method req) "HEAD" in
     let target_url := md_get "url" (query req) in
     let user_agent := ci_get_default "User-Agent" "Unknown" (req_headers req) in
     log_with_emoji "📡" ("Proxy request received from: " +:+ user_agent);;
     log_with_emoji "🔗" ("Target URL: " +:+ shown_target target_url);;
     if negb (Py.truthy_opt target_url) then
       log_with_emoji "❌" "Missing URL parameter";;
       mret (json_response [("error", "Missing url parameter")] 400)
     else
       let decoded_url := unquote (default "" target_url) in
       log_with_emoji "🎯" ("Proxying request to: " +:+ decoded_url);;
       when (USE_UPSTREAM cfg)
         (log_with_emoji "🔄"
            ("Routing through upstream proxy: " +:+ UPSTREAM_PROXY_URL cfg));;
       match ci_get "Range" (req_headers req) with
       | Some v => log_with_emoji "📊" ("Range request: " +:+ v)
       | None => mret tt
       end;;
       match session_raises w with
       | Some e => raise e
       | None => fetch_and_relay w req is_head_request decoded_url
       end)
    [ (is_Exception,
       fun e =>
         log_with_emoji "❌" ("Handler error: " +:+ exn_str e);;
         mret (json_response [("error", "Internal server error")] 500)) ].


(** ** The other handlers *)

(** The request of line 210. *)
Definition health_probe : fetch_args :=
  {| f_method := GET;
     f_url := "http://httpbin.org/get";
     f_proxy := Some (UPSTREAM_PROXY_URL cfg);
     f_ssl := ssl_False;
     f_timeout_total := 5;
     f_headers := ∅;
     f_allow_redirects := true |}.

(** The [try] statement of lines 204-213: the value of [upstream_status]. *)
Definition probe_upstream (w : world) : M string :=
  try_except
    (match session_raises w with
     | Some e => raise e
     | None =>
         emit (Fetch health_probe);;
         match upstream w with
         | inl e => raise e
         | inr response =>
             mret (if status response =? 200 then "connected" else "error")
         end
     end)
    [ (is_Exception, fun _ => mret "unreachable") ].

(** The dict of lines 215-225. *)
Definition health_report (PORT : Z) (timestamp upstream_status : string) : jvalue :=
  JObject
    [ ("status", JString "ok");
      ("timestamp", JString timestamp);
      ("service", JString "http-proxy-api-python");
      ("port", JNumber PORT);
      ("upstreamProxy",
       JObject
         [ ("enabled", JBool (USE_UPSTREAM cfg));
           ("url",
            if USE_UPSTREAM cfg then JString (UPSTREAM_PROXY_URL cfg) else JNull);
           ("status", JString upstream_status) ]) ].

(** [health_handler] (lines 199-225). [timestamp] is
    [datetime.now().isoformat()]. *)
Definition health_handler (PORT : Z) (timestamp : string) (w : world) : M json_reply :=
  upstream_status ← (if USE_UPSTREAM cfg then probe_upstream w else mret "disabled");
  mret {| jr_body := health_report PORT timestamp upstream_status;
          jr_status := 200 |}.

(** [options_handler] (lines 239-246): the status and the headers of the
    response. *)
Definition options_handler : Z * cimultidict :=
  (200, add_cors_headers []).

(** ** What a run shows *)

(** The requests issued during a run. *)
Definition fetches (t : list event) : list fetch_args :=
  omap (fun ev => match ev with Fetch a => Some a | _ => None end) t.

(** The chunks written to the caller during a run. *)
Definition written (t : list event) : list bytes :=
  omap (fun ev => match ev with Write c => Some c | _ => None end) t.

(** The status lines and headers sent to the caller during a run. *)
Definition prepared (t : list event) : list (Z * cimultidict) :=
  omap (fun ev => match ev with Prepare c h => Some (c, h) | _ => None end) t.

Definition is_log (ev : event) : bool :=
  match ev with
  | LogInfo _ | LogDebug _ => true
  | _ => false
  end.

(** A run without its log lines: what the upstream and the caller see. *)
Definition outward (t : list event) : list event :=
  List.filter (fun ev => negb (is_log ev)) t.

(** The outward behaviour of a run: the effects other than logging, and
    the outcome. *)
Definition observable {A : Type} (m : M A) : list event * result A :=
  (outward (fst m), snd m).

(** The exceptions the body copy treats as a disconnection
    (lines 160-167). *)
Definition treated_as_disconnect (e : exn) : bool :=
  is_disconnect e
  || (is_Exception e
      && (Py.str_in "closing transport" (Py.lower (exn_str e))
          || Py.str_in "connection" (Py.lower (exn_str e)))).

(** The caller sent the header [name] with the value [v]: among the
    headers of the request, the first one whose name is [name] up to letter
    case carries [v]. *)
Definition header_supplied (name v : string) (sent : cimultidict) : Prop :=
  exists before k after,
    sent = before ++ (k, v) :: after
    /\ Py.lower k = Py.lower name
    /\ forall k' v', (k', v') ∈ before -> Py.lower k' <> Py.lower name.

(** The caller sent no header named [name], in any letter case. *)
Definition header_absent (name : string) (sent : cimultidict) : Prop :=
  forall k v, (k, v) ∈ sent -> Py.lower k <> Py.lower name.

(** The four CORS headers of lines 124-127. *)
Definition cors_headers : cimultidict :=
  [ ("Access-Control-Allow-Origin", "*");
    ("Access-Control-Allow-Headers",
     "Origin, X-Requested-With, Content-Type, Accept, Range, User-Agent");
    ("Access-Control-Allow-Methods", "GET, HEAD, OPTIONS");
    ("Access-Control-Expose-Headers",
     "Content-Range, Content-Length, Accept-Ranges") ].

(** The headers whose only use is the log. *)
Definition diagnostic_headers : list string :=
  [ "x-cache"; "x-cache-lookup"; "age" ].

Definition is_diagnostic (name : string) : bool :=
  existsb (ci_eqb name) diagnostic_headers.

(** A multidict without its diagnostic headers. *)
Definition non_diagnostic (d : cimultidict) : cimultidict :=
  List.filter (fun kv => negb (is_diagnostic (fst kv))) d.

(** The world [w] with [response] as the answer of the upstream. *)
Definition with_upstream (w : world) (response : upstream_response) : world :=
  {| session_raises := session_raises w;
     upstream := inr response;
     prepare_raises := prepare_raises w;
     write_raises := write_raises w;
     write_eof_raises := write_eof_raises w |}.

(** The outside raises [e] at some await of the handler. *)
Definition raises (w : world) (e : exn) : Prop :=
  session_raises w = Some e
  \/ upstream w = inl e
  \/ prepare_raises w = Some e
  \/ write_eof_raises w = Some e
  \/ (exists i, write_raises w i = Some e)
  \/ (exists response, upstream w = inr response /\ ReadRaises e ∈ content response).

(** The part of [relay] after the log lines, for a status below 400
    (lines 153-171). *)
Definition relay_send (w : world) (is_head_request : bool)
    (response : upstream_response) : M web_response :=
  let resp := StreamResponse (status response) (outward_headers response) in
  await (Prepare (status response) (outward_headers response)) (prepare_raises w);;
  early ← (if negb is_head_request then stream_body w resp response
           else mret None);
  match early with
  | Some r => mret r
  | None => await WriteEof (write_eof_raises w);; mret resp
  end.

(** The log lines of a request that names a target, up to the creation
    of the session (lines 45-70). *)
Definition request_logs (req : request) : list event :=
  [ LogInfo ("📡 Proxy request received from: "
               +:+ ci_get_default "User-Agent" "Unknown" (req_headers req));
    LogInfo ("🔗 Target URL: " +:+ shown_target (md_get "url" (query req)));
    LogInfo ("🎯 Proxying request to: "
               +:+ unquote (default "" (md_get "url" (query req)))) ]
  ++ (if USE_UPSTREAM cfg
      then [LogInfo ("🔄 Routing through upstream proxy: " +:+ UPSTREAM_PROXY_URL cfg)]
      else [])
  ++ match ci_get "Range" (req_headers req) with
     | Some v => [LogInfo ("📊 Range request: " +:+ v)]
     | None => []
     end.

(** A trace made of log lines only. *)
Definition all_logs (t : list event) : Prop :=
  Forall (fun ev => is_log ev = true) t.

(** Every effect of a run satisfies [P]. *)
Definition only {A : Type} (P : event -> Prop) (m : M A) : Prop :=
  Forall P (fst m).

Definition not_fetch (ev : event) : Prop :=
  match ev with Fetch _ => False | _ => True end.

Definition not_write (ev : event) : Prop :=
  match ev with Write _ => False | _ => True end.

Definition not_prepare (ev : event) : Prop :=
  match ev with Prepare _ _ => False | _ => True end.

Definition not_write_eof (ev : event) : Prop :=
  match ev with WriteEof => False | _ => True end.

(** ** Laws of the effect monad *)

Lemma fst_bind {A B : Type} (m : M A) (k : A -> M B) :
  fst (m ≫= k) =
  fst m ++ match snd m with Ok a => fst (k a) | Raised _ => [] end.
Proof.
  destruct m as [t [a|e]]; cbn.
  - destruct (k a); reflexivity.
  - by rewrite app_nil_r.
Qed.

Lemma snd_bind {A B : Type} (m : M A) (k : A -> M B) :
  snd (m ≫= k) =
  match snd m with Ok a => snd (k a) | Raised e => Raised e end.
Proof.
  destruct m as [t [a|e]]; cbn; [destruct (k a)|]; reflexivity.
Qed.

Lemma fst_try_except {A : Type} (m : M A) clauses :
  fst (try_except m clauses) =
  fst m ++ match snd m with
           | Ok _ => []
           | Raised e =>
               match select_clause clauses e with
               | Some h => fst h
               | None => []
               end
           end.
Proof.
  destruct m as [t [a|e]]; cbn.
  - by rewrite app_nil_r.
  - destruct (select_clause clauses e) as [[t' r]|]; cbn; [done|].
    by rewrite app_nil_r.
Qed.

Lemma snd_try_except {A : Type} (m : M A) clauses :
  snd (try_except m clauses) =
  match snd m with
  | Ok a => Ok a
  | Raised e =>
      match select_clause clauses e with
      | Some h => snd h
      | None => Raised e
      end
  end.
Proof.
  destruct m as [t [a|e]]; cbn; [done|].
  by destruct (select_clause clauses e) as [[t' r]|].
Qed.

Lemma only_ret {A : Type} P (a : A) : only P (mret a : M A).
Proof. constructor. Qed.

Lemma only_raise {A : Type} P e : only P (raise e : M A).
Proof. constructor. Qed.

Lemma only_emit P ev : P ev -> only P (emit ev).
Proof. intros H. by repeat constructor. Qed.

Lemma only_await P ev o : P ev -> only P (await ev o).
Proof. intros H. destruct o; [apply only_raise | by apply only_emit]. Qed.

Lemma only_bind {A B : Type} P (m : M A) (k : A -> M B) :
  only P m -> (forall a, only P (k a)) -> only P (m ≫= k).
Proof.
  unfold only. intros Hm Hk. rewrite fst_bind. apply Forall_app. split; [done|].
  destruct (snd m); [apply Hk | constructor].
Qed.

Lemma only_when P c m : only P m -> only P (when c m).
Proof. intros H. destruct c; [done | apply only_ret]. Qed.

Lemma only_try_except {A : Type} P (m : M A) clauses :
  only P m ->
  Forall (fun cl => forall e, only P (snd cl e)) clauses ->
  only P (try_except m clauses).
Proof.
  unfold only. intros Hm Hc. rewrite fst_try_except. apply Forall_app.
  split; [done|]. destruct (snd m) as [a|e]; [constructor|].
  induction Hc as [|[test h] rest Hh _ IH]; cbn; [constructor|].
  destruct (test e); [apply Hh | apply IH].
Qed.

Lemma only_log_with_emoji P emoji message :
  (forall s, P (LogInfo s)) -> only P (log_with_emoji emoji message).
Proof. intros H. apply only_emit, H. Qed.

Lemma only_logger_debug P message :
  (forall s, P (LogDebug s)) -> only P (logger_debug message).
Proof. intros H. apply only_emit, H. Qed.

Lemma fetches_only t : Forall not_fetch t -> fetches t = [].
Proof.
  induction 1 as [|ev t Hev _ IH]; [done|].
  destruct ev; cbn in *; done.
Qed.

Lemma written_only t : Forall not_write t -> written t = [].
Proof.
  induction 1 as [|ev t Hev _ IH]; [done|].
  destruct ev; cbn in *; done.
Qed.

Lemma prepared_only t : Forall not_prepare t -> prepared t = [].
Proof.
  induction 1 as [|ev t Hev _ IH]; [done|].
  destruct ev; cbn in *; done.
Qed.

(** ** Which effects each part of the handler can have *)

Ltac clauses_tac :=
  repeat match goal with
         | |- Forall _ [] => apply Forall_nil_2
         | |- Forall _ (_ :: _) => apply Forall_cons_2; [cbn [snd]; intros|]
         end.

Ltac leaf_tac := first [ exact I | intros; exact I | solve [auto] ].

Ltac only_tac :=
  repeat first
    [ apply only_ret
    | apply only_raise
    | apply only_log_with_emoji; leaf_tac
    | apply only_logger_debug; leaf_tac
    | apply only_emit; leaf_tac
    | apply only_await; leaf_tac
    | apply only_when
    | apply only_bind; [|intros]
    | apply only_try_except; [|clauses_tac]
    | case_match ].

Lemma only_copy_chunks P w n stream :
  (forall c, P (Write c)) -> only P (copy_chunks w n stream).
Proof.
  intros HW. revert n.
  induction stream as [|[data|e] rest IH]; intros n; cbn [copy_chunks].
  - apply only_ret.
  - apply only_bind; [by apply only_await | intros _; apply IH].
  - apply only_raise.
Qed.

Lemma only_stream_body P w resp response :
  (forall c, P (Write c)) -> (forall s, P (LogDebug s)) ->
  only P (stream_body w resp response).
Proof.
  intros HW HD. unfold stream_body.
  apply only_try_except.
  - apply only_bind; [by apply only_copy_chunks | intros; apply only_ret].
  - clauses_tac; only_tac.
Qed.

Lemma only_log_response_info P response :
  (forall s, P (LogInfo s)) -> only P (log_response_info response).
Proof. intros HL. unfold log_response_info. only_tac. Qed.

Lemma only_relay P w is_head_request response :
  (forall s, P (LogInfo s)) -> (forall s, P (LogDebug s)) ->
  (forall c h, P (Prepare c h)) ->
  (is_head_request = false -> forall c, P (Write c)) ->
  P WriteEof ->
  only P (relay w is_head_request response).
Proof.
  intros HL HD HP HW HE. unfold relay.
  destruct (400 <=? status response); [only_tac|].
  apply only_bind; [by apply only_log_response_info | intros _].
  apply only_bind; [by apply only_await | intros _].
  apply only_bind.
  - destruct is_head_request; cbn; [apply only_ret|].
    apply only_stream_body; auto.
  - intros [r|]; only_tac.
Qed.

Lemma only_on_proxy_error P e :
  (forall s, P (LogInfo s)) -> (forall s, P (LogDebug s)) ->
  only P (on_proxy_error e).
Proof. intros HL HD. unfold on_proxy_error. only_tac. Qed.

(** ** The shape of a run *)

Lemma all_logs_outward t : all_logs t -> outward t = [].
Proof.
  induction 1 as [|ev t Hev _ IH]; [done|].
  cbn. rewrite Hev. exact IH.
Qed.

Lemma all_logs_only P t :
  (forall s, P (LogInfo s)) -> (forall s, P (LogDebug s)) ->
  all_logs t -> Forall P t.
Proof.
  intros HL HD. induction 1 as [|ev t Hev _ IH]; constructor; [|done].
  destruct ev; cbn in Hev; try discriminate; auto.
Qed.

Lemma all_logs_fetches t : all_logs t -> fetches t = [].
Proof. intros H. apply fetches_only. by apply all_logs_only. Qed.

Lemma all_logs_written t : all_logs t -> written t = [].
Proof. intros H. apply written_only. by apply all_logs_only. Qed.

Lemma all_logs_prepared t : all_logs t -> prepared t = [].
Proof. intros H. apply prepared_only. by apply all_logs_only. Qed.

Lemma log_response_info_logs response :
  exists logs, all_logs logs /\ log_response_info response = (logs, Ok tt).
Proof.
  unfold log_response_info, when.
  destruct (USE_UPSTREAM cfg), (ci_get "content-range" (headers response)),
    (ci_get "age" (headers response)), (ci_get "x-cache" (headers response));
    cbn; (eexists; split; [|reflexivity]); repeat constructor.
Qed.

Lemma relay_below_400 w is_head_request response :
  (400 <=? status response) = false ->
  exists logs, all_logs logs /\
    relay w is_head_request response =
    (logs ++ fst (relay_send w is_head_request response),
     snd (relay_send w is_head_request response)).
Proof.
  intros Hs. destruct (log_response_info_logs response) as (logs & Hlogs & E).
  exists logs. split; [done|].
  unfold relay. rewrite Hs.
  change ((log_response_info response;; relay_send w is_head_request response)
          = (logs ++ fst (relay_send w is_head_request response),
             snd (relay_send w is_head_request response))).
  rewrite E. cbn. by destruct (relay_send w is_head_request response).
Qed.

Lemma relay_from_400 w is_head_request response :
  (400 <=? status response) = true ->
  relay w is_head_request response =
  ([LogInfo ("❌ Upstream error: " +:+ Py.str_of_int (status response)
               +:+ " " +:+ reason response)],
   Ok (json_response
         [("error",
           "Upstream error: " +:+ Py.str_of_int (status response)
             +:+ " " +:+ reason response)]
         (status response))).
Proof. intros Hs. unfold relay. rewrite Hs. reflexivity. Qed.

Lemma on_proxy_error_returns e :
  exists logs r, all_logs logs /\ on_proxy_error e = (logs, Ok r).
Proof.
  unfold on_proxy_error, when.
  destruct (Py.any_in _ _); [cbn; do 2 eexists; split; [|reflexivity]; repeat constructor|].
  destruct (USE_UPSTREAM cfg && _);
    cbn; (do 2 eexists; split; [|reflexivity]); repeat constructor.
Qed.

(** The inner [try] statement lets no instance of [Exception] through. *)
Lemma fetch_and_relay_raises w req is_head_request decoded_url e :
  snd (fetch_and_relay w req is_head_request decoded_url) = Raised e ->
  is_Exception e = false.
Proof.
  unfold fetch_and_relay. rewrite snd_try_except.
  destruct (snd _) as [a|e']; [discriminate|].
  cbn [select_clause]. destruct (is_Exception e') eqn:E.
  - destruct (on_proxy_error_returns e') as (logs & r & _ & ->). discriminate.
  - by intros [= <-].
Qed.

(** The run of a request that names a target. *)
Lemma proxy_handler_with_target w req :
  Py.truthy_opt (md_get "url" (query req)) = true ->
  proxy_handler w req =
  match session_raises w with
  | Some e =>
      if is_Exception e
      then (request_logs req ++ [LogInfo ("❌ Handler error: " +:+ exn_str e)],
            Ok (json_response [("error", "Internal server error")] 500))
      else (request_logs req, Raised e)
  | None =>
      let run :=
        fetch_and_relay w req (String.eqb (method req) "HEAD")
          (unquote (default "" (md_get "url" (query req)))) in
      (request_logs req ++ fst run, snd run)
  end.
Proof.
  intros Hurl. unfold proxy_handler, request_logs, when. rewrite Hurl. cbn [negb].
  pose proof (fetch_and_relay_raises w req (String.eqb (method req) "HEAD")
                (unquote (default "" (md_get "url" (query req))))) as Hraise.
  destruct (fetch_and_relay _ _ _ _) as [t [r|e']].
  all: destruct (USE_UPSTREAM cfg), (ci_get "Range" (req_headers req)),
         (session_raises w) as [e|]; try destruct (is_Exception e) eqn:E.
  all: try (specialize (Hraise e' eq_refl)).
  all: cbn; try rewrite E; try rewrite Hraise; reflexivity.
Qed.

Lemma request_logs_all_logs req : all_logs (request_logs req).
Proof.
  unfold request_logs.
  destruct (USE_UPSTREAM cfg), (ci_get "Range" (req_headers req));
    repeat constructor.
Qed.

(** The run of a request that names no target. *)
Lemma proxy_handler_without_target w req :
  Py.truthy_opt (md_get "url" (query req)) = false ->
  exists logs, all_logs logs /\
    proxy_handler w req =
    (logs, Ok (json_response [("error", "Missing url parameter")] 400)).
Proof.
  intros Hurl. unfold proxy_handler. rewrite Hurl. cbn.
  eexists; split; [|reflexivity]. repeat constructor.
Qed.

Lemma fetch_and_relay_trace w req is_head_request decoded_url :
  exists t, Forall not_fetch t /\
    fst (fetch_and_relay w req is_head_request decoded_url) =
    Fetch (fetch_of req is_head_request decoded_url) :: t.
Proof.
  unfold fetch_and_relay. rewrite fst_try_except, fst_bind.
  cbn [emit fst snd app]. eexists. split; [|reflexivity].
  apply Forall_app. split.
  - destruct (upstream w) as [e|response]; [constructor|].
    apply only_relay; intros; exact I.
  - destruct (snd _) as [r|e]; [constructor|].
    cbn [select_clause]. destruct (is_Exception e); [|constructor].
    apply only_on_proxy_error; intros; exact I.
Qed.

(** The requests a run issues: one when the request names a target and
    the session could be created, none otherwise. *)
Lemma proxy_handler_fetches w req :
  fetches (fst (proxy_handler w req)) =
  if Py.truthy_opt (md_get "url" (query req)) then
    match session_raises w with
    | None =>
        [fetch_of req (String.eqb (method req) "HEAD")
           (unquote (default "" (md_get "url" (query req))))]
    | Some _ => []
    end
  else [].
Proof.
  destruct (Py.truthy_opt (md_get "url" (query req))) eqn:Hurl.
  - rewrite (proxy_handler_with_target w req Hurl).
    pose proof (request_logs_all_logs req) as Hlogs.
    destruct (session_raises w) as [e|].
    + destruct (is_Exception e); cbn [fst].
      * apply fetches_only, Forall_app. split.
        -- by apply all_logs_only.
        -- repeat constructor.
      * by apply all_logs_fetches.
    + cbn [fst].
      destruct (fetch_and_relay_trace w req (String.eqb (method req) "HEAD")
                  (unquote (default "" (md_get "url" (query req)))))
        as (t & Ht & ->).
      unfold fetches. rewrite omap_app. fold (fetches (request_logs req)).
      rewrite (all_logs_fetches _ Hlogs). cbn. f_equal.
      by apply fetches_only.
  - destruct (proxy_handler_without_target w req Hurl) as (logs & Hlogs & ->).
    by apply all_logs_fetches.
Qed.

Lemma truthy_opt_false (o : option string) :
  Py.truthy_opt o = false <-> o = None \/ o = Some "".
Proof.
  destruct o as [s|]; cbn; [|naive_solver].
  unfold Py.truthy. destruct (String.eqb_spec s ""); naive_solver.
Qed.

Lemma truthy_opt_true (o : option string) (u : string) :
  o = Some u -> u <> "" -> Py.truthy_opt o = true.
Proof.
  intros -> Hu. cbn. unfold Py.truthy. by destruct (String.eqb_spec u "").
Qed.

(** The entries of the dict sent upstream. *)
Lemma outbound_headers_lookup req k v :
  outbound_headers req !! k = Some v <->
  (k = "User-Agent"
   /\ v = ci_get_default "User-Agent" "Mozilla/5.0 (compatible; HTTPProxy/1.0)"
            (req_headers req))
  \/ (k = "Cache-Control" /\ v = "max-age=3600" /\ USE_UPSTREAM cfg = true)
  \/ (k = "Range" /\ ci_get "Range" (req_headers req) = Some v)
  \/ (k = "Referer" /\ ci_get "Referer" (req_headers req) = Some v).
Proof.
  unfold outbound_headers.
  destruct (USE_UPSTREAM cfg), (ci_get "Range" (req_headers req)),
    (ci_get "Referer" (req_headers req));
    rewrite ?lookup_insert, lookup_singleton;
    repeat case_decide; naive_solver.
Qed.

(** ** Properties of the handler *)

(** C5: a request whose [url] query parameter is absent or empty is answered
    with status 400 and the JSON body [{"error": "Missing url parameter"}],
    and no outbound request is issued. Any other value of [url] is handed to
    the transport after percent decoding and nothing else: once the session
    exists, the request is issued for [unquote u], whatever [u] is. *)
Theorem missing_url_rejected w req :
  (md_get "url" (query req) = None \/ md_get "url" (query req) = Some "" ->
   snd (proxy_handler w req)
   = Ok (json_response [("error", "Missing url parameter")] 400)
   /\ fetches (fst (proxy_handler w req)) = [])
  /\ (forall u,
        md_get "url" (query req) = Some u -> u <> "" ->
        session_raises w = None ->
        fetches (fst (proxy_handler w req))
        = [fetch_of req (String.eqb (method req) "HEAD") (unquote u)]).
Proof.
  split.
  - intros Hurl. apply truthy_opt_false in Hurl.
    rewrite proxy_handler_fetches, Hurl.
    destruct (proxy_handler_without_target w req Hurl) as (logs & _ & ->).
    done.
  - intros u Hu Hne Hs.
    rewrite proxy_handler_fetches, (truthy_opt_true _ u Hu Hne), Hs, Hu.
    reflexivity.
Qed.

(** C2, amended: every outbound request of the handler is issued in one of
    two modes. When [USE_UPSTREAM] is true and the configured proxy address
    is not empty, the request goes through that address with certificate
    verification switched off. When [USE_UPSTREAM] is false, the request is
    direct, verified against the system trust store, and carries no proxy
    address. *)
Theorem fetch_mode_by_config w req a :
  a ∈ fetches (fst (proxy_handler w req)) ->
  (USE_UPSTREAM cfg = true -> UPSTREAM_PROXY_URL cfg <> "" ->
   f_proxy a = Some (UPSTREAM_PROXY_URL cfg) /\ f_ssl a = ssl_False)
  /\ (USE_UPSTREAM cfg = false ->
      f_proxy a = None /\ f_ssl a = ssl_context).
Proof.
  rewrite proxy_handler_fetches.
  destruct (Py.truthy_opt _); [|by intros ?%elem_of_nil].
  destruct (session_raises w); [by intros ?%elem_of_nil|].
  intros ->%list_elem_of_singleton. cbn [fetch_of f_proxy f_ssl].
  unfold connector_ssl, proxy. split.
  - intros -> Hne. split; [done|]. cbn. unfold Py.truthy.
    by destruct (String.eqb_spec (UPSTREAM_PROXY_URL cfg) "").
  - by intros ->.
Qed.

Lemma ci_get_absent name sent :
  header_absent name sent -> ci_get name sent = None.
Proof.
  unfold header_absent. induction sent as [|[k v] sent IH]; intros H; [done|].
  cbn [ci_get]. unfold ci_eqb.
  destruct (String.eqb_spec (Py.lower name) (Py.lower k)) as [E|E].
  - exfalso. apply (H k v); [apply list_elem_of_here | done].
  - apply IH. intros k' v' Hin. apply (H k' v'). by apply list_elem_of_further.
Qed.

Lemma ci_get_supplied name v sent :
  header_supplied name v sent -> ci_get name sent = Some v.
Proof.
  intros (before & k & after & -> & Hk & Hbefore).
  induction before as [|[k' v'] before IH]; cbn [app ci_get]; unfold ci_eqb.
  - by rewrite Hk, String.eqb_refl.
  - destruct (String.eqb_spec (Py.lower name) (Py.lower k')) as [E|E].
    + exfalso. apply (Hbefore k' v'); [apply list_elem_of_here | done].
    + apply IH. intros k'' v'' Hin. apply (Hbefore k'' v'').
      by apply list_elem_of_further.
Qed.

(** C3: for a request that names a non-empty target, the header mapping of
    the outbound request holds exactly: [User-Agent], with the value of the
    caller's [User-Agent] header when the caller sent one and the fixed
    default otherwise; [Cache-Control: max-age=3600] if and only if
    [USE_UPSTREAM] is true; [Range] with the caller's value when the caller
    sent one, and not otherwise; [Referer] likewise. No other key is
    present. The caller's headers are found whatever the letter case of
    their names. *)
Theorem outbound_header_policy w req u :
  md_get "url" (query req) = Some u -> u <> "" ->
  session_raises w = None ->
  exists a,
    fetches (fst (proxy_handler w req)) = [a]
    /\ (forall v,
          header_supplied "User-Agent" v (req_headers req) ->
          f_headers a !! "User-Agent" = Some v)
    /\ (header_absent "User-Agent" (req_headers req) ->
        f_headers a !! "User-Agent"
        = Some "Mozilla/5.0 (compatible; HTTPProxy/1.0)")
    /\ f_headers a !! "Cache-Control"
       = (if USE_UPSTREAM cfg then Some "max-age=3600" else None)
    /\ (forall v,
          header_supplied "Range" v (req_headers req) ->
          f_headers a !! "Range" = Some v)
    /\ (header_absent "Range" (req_headers req) ->
        f_headers a !! "Range" = None)
    /\ (forall v,
          header_supplied "Referer" v (req_headers req) ->
          f_headers a !! "Referer" = Some v)
    /\ (header_absent "Referer" (req_headers req) ->
        f_headers a !! "Referer" = None)
    /\ (forall k,
          k <> "User-Agent" -> k <> "Cache-Control" ->
          k <> "Range" -> k <> "Referer" ->
          f_headers a !! k = None).
Proof.
  intros Hu Hne Hs.
  rewrite proxy_handler_fetches, (truthy_opt_true _ u Hu Hne), Hs.
  eexists. split; [reflexivity|]. cbn [fetch_of f_headers].
  assert (forall k,
            outbound_headers req !! k = None <->
            forall v, outbound_headers req !! k <> Some v) as Hnone.
  { intros k. destruct (outbound_headers req !! k); naive_solver. }
  split; [|split; [|split; [|split; [|split; [|split; [|split]]]]]].
  - intros v Hv%ci_get_supplied. apply outbound_headers_lookup. left.
    split; [done|]. unfold ci_get_default. by rewrite Hv.
  - intros Hv%ci_get_absent. apply outbound_headers_lookup. left.
    split; [done|]. unfold ci_get_default. by rewrite Hv.
  - destruct (USE_UPSTREAM cfg) eqn:E.
    + apply outbound_headers_lookup. right. left. by rewrite E.
    + apply Hnone. intros v Hv%outbound_headers_lookup. rewrite E in Hv.
      naive_solver.
  - intros v Hv%ci_get_supplied. apply outbound_headers_lookup.
    right. right. left. by split.
  - intros Hv%ci_get_absent. apply Hnone.
    intros v Hv'%outbound_headers_lookup. rewrite Hv in Hv'. naive_solver.
  - intros v Hv%ci_get_supplied. apply outbound_headers_lookup.
    right. right. right. by split.
  - intros Hv%ci_get_absent. apply Hnone.
    intros v Hv'%outbound_headers_lookup. rewrite Hv in Hv'. naive_solver.
  - intros k H1 H2 H3 H4. apply Hnone.
    intros v Hv%outbound_headers_lookup. naive_solver.
Qed.

(** *** Case-insensitive multidicts *)

Lemma ci_eqb_sym a b : ci_eqb a b = ci_eqb b a.
Proof. unfold ci_eqb. apply String.eqb_sym. Qed.

Lemma ci_get_app k d1 d2 :
  ci_get k (d1 ++ d2) =
  match ci_get k d1 with
  | Some v => Some v
  | None => ci_get k d2
  end.
Proof.
  induction d1 as [|[k' v'] d1 IH]; cbn; [done|].
  by destruct (ci_eqb k k').
Qed.

Lemma ci_set_fresh k v d :
  ci_get k d = None -> ci_set k v d = d ++ [(k, v)].
Proof.
  induction d as [|[k' v'] d IH]; cbn; [done|].
  destruct (ci_eqb k k'); [done|]. intros H. by rewrite IH.
Qed.

(** The step of the loop of lines 119-121. *)
Lemma forward_headers_fold upstream_headers names acc :
  ci_distinct names = true ->
  (forall name, name ∈ names -> ci_get name acc = None) ->
  fold_left
    (fun acc header =>
       match ci_get header upstream_headers with
       | Some v => ci_set header v acc
       | None => acc
       end)
    names acc
  = acc ++ omap (fun name => pair name <$> ci_get name upstream_headers) names.
Proof.
  revert acc. induction names as [|name rest IH]; intros acc Hd Hacc; cbn.
  - by rewrite app_nil_r.
  - cbn in Hd. apply andb_prop in Hd as [Hname Hrest].
    destruct (ci_get name upstream_headers) as [v|] eqn:E; cbn.
    + rewrite ci_set_fresh by (apply Hacc; left).
      rewrite IH; [by rewrite <- app_assoc | done |].
      intros m Hm. rewrite ci_get_app, Hacc by (by right). cbn.
      rewrite forallb_forall in Hname.
      specialize (Hname m). rewrite <- list_elem_of_In in Hname.
      specialize (Hname Hm). rewrite ci_eqb_sym.
      by destruct (ci_eqb name m).
    + apply IH; [done|]. intros m Hm. apply Hacc. by right.
Qed.

Lemma ci_get_forwarded_other k upstream_headers names :
  forallb (fun name => negb (ci_eqb k name)) names = true ->
  ci_get k (omap (fun name => pair name <$> ci_get name upstream_headers) names)
  = None.
Proof.
  induction names as [|name rest IH]; cbn; [done|].
  intros [Hk Hrest]%andb_prop.
  destruct (ci_get name upstream_headers); cbn; [|by apply IH].
  destruct (ci_eqb k name); [done | by apply IH].
Qed.

Lemma ci_eqb_refl k : ci_eqb k k = true.
Proof. unfold ci_eqb. apply String.eqb_refl. Qed.

Lemma ci_get_forwarded k v upstream_headers names :
  ci_distinct names = true ->
  k ∈ names -> ci_get k upstream_headers = Some v ->
  ci_get k (omap (fun name => pair name <$> ci_get name upstream_headers) names)
  = Some v.
Proof.
  intros Hd Hin Hv. induction names as [|name rest IH]; [by apply elem_of_nil in Hin|].
  cbn in Hd. apply andb_prop in Hd as [Hname Hrest].
  apply elem_of_cons in Hin as [<-|Hin]; cbn.
  - rewrite Hv. cbn. by rewrite ci_eqb_refl.
  - destruct (ci_get name upstream_headers) eqn:E; cbn; [|by apply IH].
    rewrite forallb_forall in Hname.
    specialize (Hname k). rewrite <- list_elem_of_In in Hname.
    specialize (Hname Hin). rewrite ci_eqb_sym.
    destruct (ci_eqb name k); [done | by apply IH].
Qed.

(** The headers of a relayed response, in order: the allow-listed names
    the upstream provided, each with the first value stored under it, then
    the four CORS headers. *)
Lemma outward_headers_eq response :
  outward_headers response =
  omap (fun name => pair name <$> ci_get name (headers response)) headers_to_forward
  ++ cors_headers.
Proof.
  unfold outward_headers, forward_headers.
  rewrite forward_headers_fold; [|by vm_compute|done]. cbn [app].
  set (fwd := omap _ headers_to_forward).
  assert (Hfresh : forall k,
             forallb (fun name => negb (ci_eqb k name)) headers_to_forward = true ->
             ci_get k fwd = None)
    by (intros k; apply ci_get_forwarded_other).
  unfold add_cors_headers, cors_headers.
  rewrite (ci_set_fresh "Access-Control-Allow-Origin")
    by (apply Hfresh; by vm_compute).
  rewrite (ci_set_fresh "Access-Control-Allow-Headers")
    by (rewrite ci_get_app, Hfresh; by vm_compute).
  rewrite (ci_set_fresh "Access-Control-Allow-Methods")
    by (rewrite !ci_get_app, Hfresh; by vm_compute).
  rewrite (ci_set_fresh "Access-Control-Expose-Headers")
    by (rewrite !ci_get_app, Hfresh; by vm_compute).
  by rewrite <- !app_assoc.
Qed.


(** *** The body copy *)

Lemma copy_chunks_raised w n stream e :
  snd (copy_chunks w n stream) = Raised e ->
  (exists i, write_raises w i = Some e) \/ ReadRaises e ∈ stream.
Proof.
  revert n. induction stream as [|[data|e'] rest IH]; intros n; cbn [copy_chunks].
  - discriminate.
  - rewrite snd_bind. destruct (write_raises w n) as [e'|] eqn:E; cbn.
    + intros [= <-]. left. by exists n.
    + intros H. destruct (IH _ H) as [?|?]; [by left | right; by right].
  - cbn. intros [= <-]. right. by left.
Qed.

Lemma stream_body_completed w resp response :
  snd (copy_chunks w 0 (content response)) = Ok tt ->
  stream_body w resp response = (fst (copy_chunks w 0 (content response)), Ok None).
Proof.
  intros H. unfold stream_body.
  destruct (copy_chunks w 0 (content response)) as [t r]. cbn in H. subst r.
  cbn. by rewrite app_nil_r.
Qed.

Lemma stream_body_disconnect w resp response e :
  snd (copy_chunks w 0 (content response)) = Raised e ->
  treated_as_disconnect e = true ->
  exists message,
    stream_body w resp response
    = (fst (copy_chunks w 0 (content response)) ++ [LogDebug message],
       Ok (Some resp)).
Proof.
  intros H Ht. unfold stream_body.
  destruct (copy_chunks w 0 (content response)) as [t r]. cbn in H. subst r.
  unfold treated_as_disconnect in Ht. cbn.
  destruct (is_disconnect e); [by eexists|].
  destruct (is_Exception e); [|done].
  destruct (Py.str_in "closing transport" _), (Py.str_in "connection" _);
    cbn in *; try done; by eexists.
Qed.

Lemma stream_body_reraise w resp response e :
  snd (copy_chunks w 0 (content response)) = Raised e ->
  treated_as_disconnect e = false ->
  stream_body w resp response
  = (fst (copy_chunks w 0 (content response)), Raised e).
Proof.
  intros H Ht. unfold stream_body.
  destruct (copy_chunks w 0 (content response)) as [t r]. cbn in H. subst r.
  unfold treated_as_disconnect in Ht. cbn.
  destruct (is_disconnect e); [done|].
  destruct (is_Exception e); [|done].
  destruct (Py.str_in "closing transport" _), (Py.str_in "connection" _);
    cbn in *; rewrite ?app_nil_r; done.
Qed.

Lemma stream_body_raised w resp response e :
  snd (stream_body w resp response) = Raised e ->
  snd (copy_chunks w 0 (content response)) = Raised e
  /\ treated_as_disconnect e = false.
Proof.
  destruct (snd (copy_chunks w 0 (content response))) as [[]|e'] eqn:E.
  - by rewrite (stream_body_completed _ _ _ E).
  - destruct (treated_as_disconnect e') eqn:Ht.
    + by destruct (stream_body_disconnect _ resp _ _ E Ht) as (message & ->).
    + rewrite (stream_body_reraise _ _ _ _ E Ht). by intros [= <-].
Qed.

(** *** The status line and the headers sent *)

Lemma prepared_app t1 t2 : prepared (t1 ++ t2) = prepared t1 ++ prepared t2.
Proof. apply omap_app. Qed.

Lemma written_app t1 t2 : written (t1 ++ t2) = written t1 ++ written t2.
Proof. apply omap_app. Qed.

Lemma relay_send_prepared w is_head_request response :
  prepared (fst (relay_send w is_head_request response)) =
  match prepare_raises w with
  | None => [(status response, outward_headers response)]
  | Some _ => []
  end.
Proof.
  unfold relay_send. rewrite fst_bind.
  destruct (prepare_raises w); cbn [await raise emit fst snd app]; [done|].
  change (prepared (Prepare ?c ?h :: ?t)) with ((c, h) :: prepared t).
  f_equal. apply prepared_only.
  apply only_bind.
  - destruct is_head_request; cbn; [apply only_ret|].
    apply only_stream_body; intros; exact I.
  - intros [r|]; only_tac.
Qed.

Lemma relay_prepared w is_head_request response :
  prepared (fst (relay w is_head_request response)) =
  if 400 <=? status response then []
  else match prepare_raises w with
       | None => [(status response, outward_headers response)]
       | Some _ => []
       end.
Proof.
  destruct (400 <=? status response) eqn:Hs.
  - by rewrite relay_from_400.
  - destruct (relay_below_400 w is_head_request response Hs) as (logs & Hlogs & ->).
    cbn [fst]. rewrite prepared_app, (all_logs_prepared _ Hlogs).
    apply relay_send_prepared.
Qed.

Lemma fetch_and_relay_prepared w req is_head_request decoded_url :
  prepared (fst (fetch_and_relay w req is_head_request decoded_url)) =
  match upstream w with
  | inl _ => []
  | inr response => prepared (fst (relay w is_head_request response))
  end.
Proof.
  unfold fetch_and_relay. rewrite fst_try_except, fst_bind, !prepared_app.
  cbn [emit fst snd prepared omap app].
  match goal with
  | |- _ ++ prepared ?h = _ => assert (prepared h = []) as ->
  end.
  { destruct (snd _) as [r|e]; [done|]. cbn [select_clause].
    destruct (is_Exception e); [|done].
    apply prepared_only, only_on_proxy_error; intros; exact I. }
  rewrite app_nil_r. by destruct (upstream w).
Qed.

(** The status lines and headers a run sends. *)
Lemma proxy_handler_prepared w req :
  prepared (fst (proxy_handler w req)) =
  if Py.truthy_opt (md_get "url" (query req)) then
    match session_raises w, upstream w, prepare_raises w with
    | None, inr response, None =>
        if 400 <=? status response then []
        else [(status response, outward_headers response)]
    | _, _, _ => []
    end
  else [].
Proof.
  destruct (Py.truthy_opt (md_get "url" (query req))) eqn:Hurl.
  - rewrite (proxy_handler_with_target w req Hurl).
    pose proof (request_logs_all_logs req) as Hlogs.
    destruct (session_raises w) as [e|].
    + destruct (is_Exception e); cbn [fst].
      * by rewrite prepared_app, (all_logs_prepared _ Hlogs).
      * by apply all_logs_prepared.
    + cbn [fst]. rewrite prepared_app, (all_logs_prepared _ Hlogs).
      rewrite fetch_and_relay_prepared. cbn [app].
      destruct (upstream w) as [e|response]; [done|].
      rewrite relay_prepared. by destruct (400 <=? status response), (prepare_raises w).
  - destruct (proxy_handler_without_target w req Hurl) as (logs & Hlogs & ->).
    by apply all_logs_prepared.
Qed.

(** *** Outcomes *)

Lemma relay_send_outcome w is_head_request response :
  snd (relay_send w is_head_request response) =
  match prepare_raises w with
  | Some e => Raised e
  | None =>
      match (if negb is_head_request
             then snd (stream_body w
                         (StreamResponse (status response) (outward_headers response))
                         response)
             else Ok None) with
      | Ok (Some r) => Ok r
      | Ok None =>
          match write_eof_raises w with
          | Some e => Raised e
          | None => Ok (StreamResponse (status response) (outward_headers response))
          end
      | Raised e => Raised e
      end
  end.
Proof.
  unfold relay_send. rewrite snd_bind.
  destruct (prepare_raises w); cbn [await raise emit snd]; [done|].
  rewrite snd_bind. destruct is_head_request; cbn [negb].
  - cbn. by destruct (write_eof_raises w).
  - destruct (snd (stream_body _ _ _)) as [[r|]|e]; [done| |done].
    rewrite snd_bind. by destruct (write_eof_raises w).
Qed.

Lemma stream_body_returned w resp response r :
  snd (stream_body w resp response) = Ok (Some r) -> r = resp.
Proof.
  destruct (snd (copy_chunks w 0 (content response))) as [[]|e] eqn:E.
  - by rewrite (stream_body_completed _ _ _ E).
  - destruct (treated_as_disconnect e) eqn:Ht.
    + destruct (stream_body_disconnect _ resp _ _ E Ht) as (message & ->).
      by intros [= <-].
    + by rewrite (stream_body_reraise _ _ _ _ E Ht).
Qed.

Lemma relay_send_returned w is_head_request response r :
  snd (relay_send w is_head_request response) = Ok r ->
  r = StreamResponse (status response) (outward_headers response).
Proof.
  rewrite relay_send_outcome. destruct (prepare_raises w); [done|].
  destruct is_head_request; cbn [negb].
  - destruct (write_eof_raises w); [done | by intros [= <-]].
  - destruct (snd (stream_body _ _ _)) as [[r'|]|e] eqn:E; [|  |done].
    + apply stream_body_returned in E. by intros [= <-].
    + destruct (write_eof_raises w); [done | by intros [= <-]].
Qed.

Lemma relay_send_raised w is_head_request response e :
  snd (relay_send w is_head_request response) = Raised e ->
  prepare_raises w = Some e
  \/ write_eof_raises w = Some e
  \/ (is_head_request = false
      /\ snd (copy_chunks w 0 (content response)) = Raised e
      /\ treated_as_disconnect e = false).
Proof.
  rewrite relay_send_outcome.
  destruct (prepare_raises w); [intros [= <-]; by left|].
  destruct is_head_request; cbn [negb].
  - destruct (write_eof_raises w); [|done]. intros [= <-]. right. by left.
  - destruct (snd (stream_body _ _ _)) as [[r'|]|e'] eqn:E; [done| |].
    + destruct (write_eof_raises w); [|done]. intros [= <-]. right. by left.
    + intros [= <-]. apply stream_body_raised in E. right. right. by split.
Qed.

Lemma relay_outcome_below_400 w is_head_request response :
  (400 <=? status response) = false ->
  snd (relay w is_head_request response)
  = snd (relay_send w is_head_request response).
Proof.
  intros Hs. by destruct (relay_below_400 w is_head_request response Hs)
               as (logs & _ & ->).
Qed.

Lemma fetch_and_relay_outcome w req is_head_request decoded_url :
  snd (fetch_and_relay w req is_head_request decoded_url) =
  match (match upstream w with
         | inl e => Raised e
         | inr response => snd (relay w is_head_request response)
         end) with
  | Ok r => Ok r
  | Raised e => if is_Exception e then snd (on_proxy_error e) else Raised e
  end.
Proof.
  unfold fetch_and_relay. rewrite snd_try_except, snd_bind.
  cbn [emit snd select_clause].
  destruct (upstream w) as [e|response]; cbn [raise snd].
  - by destruct (is_Exception e).
  - destruct (snd (relay _ _ _)) as [r|e]; [done|]. by destruct (is_Exception e).
Qed.

Lemma proxy_handler_outcome w req :
  Py.truthy_opt (md_get "url" (query req)) = true ->
  snd (proxy_handler w req) =
  match session_raises w with
  | Some e =>
      if is_Exception e
      then Ok (json_response [("error", "Internal server error")] 500)
      else Raised e
  | None =>
      snd (fetch_and_relay w req (String.eqb (method req) "HEAD")
             (unquote (default "" (md_get "url" (query req)))))
  end.
Proof.
  intros Hurl. rewrite (proxy_handler_with_target w req Hurl).
  destruct (session_raises w) as [e|]; [|done]. by destruct (is_Exception e).
Qed.


Lemma on_proxy_error_outcome e :
  snd (on_proxy_error e) =
  Ok (if Py.any_in ["closing transport"; "connection reset"; "broken pipe"]
           (Py.lower (exn_str e))
      then Response 499
      else json_response
             [("error", "Proxy request failed");
              ("details", exn_str e);
              ("upstreamProxy",
               if USE_UPSTREAM cfg then UPSTREAM_PROXY_URL cfg else "disabled")]
             500).
Proof.
  unfold on_proxy_error, when.
  destruct (Py.any_in _ _); [done|].
  by destruct (USE_UPSTREAM cfg && _).
Qed.


(** *** Substrings *)

Lemma append_cons c a b : String c a +:+ b = String c (a +:+ b).
Proof. reflexivity. Qed.

Lemma startswith_app n b : Py.startswith n (n +:+ b) = true.
Proof.
  induction n as [|c n IH]; [done|].
  rewrite append_cons. cbn [Py.startswith].
  by rewrite Ascii.eqb_refl, IH.
Qed.

Lemma str_in_prefix n b : Py.str_in n (n +:+ b) = true.
Proof.
  destruct (n +:+ b) eqn:E; cbn [Py.str_in]; rewrite <- E, startswith_app; done.
Qed.

Lemma str_in_refl n : Py.str_in n n = true.
Proof.
  assert (Hs : Py.startswith n n = true).
  { induction n as [|c n IH]; cbn [Py.startswith]; [done|].
    by rewrite Ascii.eqb_refl, IH. }
  destruct n; cbn [Py.str_in]; by rewrite Hs.
Qed.

Lemma str_in_app_r a s n : Py.str_in n s = true -> Py.str_in n (a +:+ s) = true.
Proof.
  intros H. induction a as [|c a IH]; [done|].
  rewrite append_cons. cbn [Py.str_in]. rewrite IH. apply orb_true_r.
Qed.


(** C4: when the upstream answers with a status of 400 or more, the handler
    writes no body chunk and sends no streaming status line; it returns a
    JSON response whose status is the upstream status and whose body is the
    object [{"error": "Upstream error: <status> <reason>"}], which names
    both the upstream status and the upstream reason. *)
Theorem upstream_error_mirrored w req u response :
  md_get "url" (query req) = Some u -> u <> "" ->
  session_raises w = None ->
  upstream w = inr response -> 400 <= status response ->
  let message :=
    "Upstream error: " +:+ Py.str_of_int (status response)
      +:+ " " +:+ reason response in
  snd (proxy_handler w req)
  = Ok (json_response [("error", message)] (status response))
  /\ Py.str_in (Py.str_of_int (status response)) message = true
  /\ Py.str_in (reason response) message = true
  /\ written (fst (proxy_handler w req)) = []
  /\ prepared (fst (proxy_handler w req)) = [].
Proof.
  intros Hu Hne Hsess Hup Hs message.
  pose proof (truthy_opt_true _ u Hu Hne) as Hurl.
  apply Z.leb_le in Hs.
  split; [|split; [|split; [|split]]].
  - rewrite (proxy_handler_outcome w req Hurl), Hsess.
    by rewrite fetch_and_relay_outcome, Hup, relay_from_400.
  - apply str_in_app_r, str_in_prefix.
  - do 3 apply str_in_app_r. apply str_in_refl.
  - rewrite (proxy_handler_with_target w req Hurl), Hsess. cbn [fst].
    rewrite written_app, (all_logs_written _ (request_logs_all_logs req)).
    unfold fetch_and_relay. rewrite Hup, (relay_from_400 _ _ _ Hs). reflexivity.
  - rewrite proxy_handler_prepared, Hurl, Hsess, Hup, Hs.
    by destruct (prepare_raises w).
Qed.


(** *** Which effects a whole run can have *)

Lemma only_fetch_and_relay P w req is_head_request decoded_url :
  (forall s, P (LogInfo s)) -> (forall s, P (LogDebug s)) ->
  (forall a, P (Fetch a)) -> (forall c h, P (Prepare c h)) ->
  (is_head_request = false -> forall c, P (Write c)) ->
  P WriteEof ->
  only P (fetch_and_relay w req is_head_request decoded_url).
Proof.
  intros HL HD HF HP HW HE. unfold fetch_and_relay.
  apply only_try_except.
  - apply only_bind; [by apply only_emit | intros _].
    destruct (upstream w); [apply only_raise | by apply only_relay].
  - clauses_tac. by apply only_on_proxy_error.
Qed.

Lemma only_proxy_handler P w req :
  (forall s, P (LogInfo s)) -> (forall s, P (LogDebug s)) ->
  (forall a, P (Fetch a)) -> (forall c h, P (Prepare c h)) ->
  (String.eqb (method req) "HEAD" = false -> forall c, P (Write c)) ->
  P WriteEof ->
  only P (proxy_handler w req).
Proof.
  intros HL HD HF HP HW HE. unfold only.
  destruct (Py.truthy_opt (md_get "url" (query req))) eqn:Hurl.
  - rewrite (proxy_handler_with_target w req Hurl).
    pose proof (all_logs_only P _ HL HD (request_logs_all_logs req)) as Hlogs.
    destruct (session_raises w) as [e|].
    + destruct (is_Exception e); cbn [fst]; [|done].
      apply Forall_app. split; [done|]. by repeat constructor.
    + cbn [fst]. apply Forall_app. split; [done|].
      by apply only_fetch_and_relay.
  - destruct (proxy_handler_without_target w req Hurl) as (logs & Hlogs & ->).
    by apply all_logs_only.
Qed.

(** C7: a HEAD request writes no body chunk, whatever the upstream body
    is, while the status line it sends still carries the allow-listed
    headers of the upstream: each allow-listed name the upstream provided,
    [content-length] among them, is found in the outward headers with the
    upstream value. *)
Theorem head_writes_no_body w req :
  method req = "HEAD" ->
  written (fst (proxy_handler w req)) = []
  /\ (forall u response,
        md_get "url" (query req) = Some u -> u <> "" ->
        session_raises w = None -> upstream w = inr response ->
        status response < 400 -> prepare_raises w = None ->
        prepared (fst (proxy_handler w req))
        = [(status response, outward_headers response)]
        /\ forall name v,
             name ∈ headers_to_forward ->
             ci_get name (headers response) = Some v ->
             ci_get name (outward_headers response) = Some v).
Proof.
  intros Hm. split.
  - apply written_only, only_proxy_handler; try (intros; exact I).
    rewrite Hm. discriminate.
  - intros u response Hu Hne Hsess Hup Hs Hprep. split.
    + rewrite proxy_handler_prepared, (truthy_opt_true _ u Hu Hne), Hsess, Hup, Hprep.
      apply Z.leb_gt in Hs. by rewrite Hs.
    + intros name v Hin Hv.
      rewrite outward_headers_eq, ci_get_app.
      by rewrite (ci_get_forwarded name v) by (by vm_compute || done).
Qed.

(** *** A disconnection during the body copy *)

Lemma relay_send_disconnect w response e :
  prepare_raises w = None ->
  snd (copy_chunks w 0 (content response)) = Raised e ->
  treated_as_disconnect e = true ->
  exists message,
    relay_send w false response
    = (Prepare (status response) (outward_headers response)
         :: fst (copy_chunks w 0 (content response)) ++ [LogDebug message],
       Ok (StreamResponse (status response) (outward_headers response))).
Proof.
  intros Hprep Hcopy Ht.
  destruct (stream_body_disconnect w
              (StreamResponse (status response) (outward_headers response))
              response e Hcopy Ht) as (message & Hsb).
  exists message. unfold relay_send. rewrite Hprep. cbn [negb]. rewrite Hsb.
  cbn [await emit mbind M_bind mret M_ret app]. by rewrite app_nil_r.
Qed.

Lemma proxy_handler_disconnect w req response e :
  Py.truthy_opt (md_get "url" (query req)) = true ->
  session_raises w = None ->
  upstream w = inr response -> (400 <=? status response) = false ->
  prepare_raises w = None ->
  String.eqb (method req) "HEAD" = false ->
  snd (copy_chunks w 0 (content response)) = Raised e ->
  treated_as_disconnect e = true ->
  exists logs message,
    all_logs logs /\
    proxy_handler w req
    = (request_logs req
         ++ Fetch (fetch_of req false (unquote (default "" (md_get "url" (query req)))))
         :: logs
         ++ Prepare (status response) (outward_headers response)
         :: fst (copy_chunks w 0 (content response)) ++ [LogDebug message],
       Ok (StreamResponse (status response) (outward_headers response))).
Proof.
  intros Hurl Hsess Hup Hs Hprep Hm Hcopy Ht.
  destruct (relay_below_400 w false response Hs) as (logs & Hlogs & Hrelay).
  destruct (relay_send_disconnect w response e Hprep Hcopy Ht) as (message & Hsend).
  exists logs, message. split; [done|].
  rewrite (proxy_handler_with_target w req Hurl), Hsess, Hm. cbn zeta.
  f_equal.
  - f_equal. unfold fetch_and_relay.
    rewrite fst_try_except, fst_bind, snd_bind, Hup, Hrelay, Hsend.
    cbn [emit fst snd app]. by rewrite app_nil_r.
  - unfold fetch_and_relay.
    by rewrite snd_try_except, snd_bind, Hup, Hrelay, Hsend.
Qed.

(** C6, amended: take an exception raised while the body is copied to the
    caller. If it is a [ConnectionResetError], a [BrokenPipeError] or a
    [CancelledError], or any other instance of [Exception] whose lower-cased
    message contains "closing transport" or "connection", the handler stops
    writing, sends neither the end of the body nor another status line, and
    returns the response it had started. Every other instance of [Exception]
    is re-raised by the body copy and reaches the handler of the inner [try]
    statement, whose response is returned. *)
Theorem body_copy_disconnect w req u response e :
  md_get "url" (query req) = Some u -> u <> "" ->
  session_raises w = None ->
  upstream w = inr response -> status response < 400 ->
  prepare_raises w = None ->
  method req <> "HEAD" ->
  snd (copy_chunks w 0 (content response)) = Raised e ->
  (is_disconnect e = true -> treated_as_disconnect e = true)
  /\ (treated_as_disconnect e = true ->
      snd (proxy_handler w req)
      = Ok (StreamResponse (status response) (outward_headers response))
      /\ written (fst (proxy_handler w req))
         = written (fst (copy_chunks w 0 (content response)))
      /\ (WriteEof ∉ fst (proxy_handler w req))
      /\ prepared (fst (proxy_handler w req))
         = [(status response, outward_headers response)])
  /\ (treated_as_disconnect e = false -> is_Exception e = true ->
      snd (stream_body w
             (StreamResponse (status response) (outward_headers response))
             response) = Raised e
      /\ snd (proxy_handler w req) = snd (on_proxy_error e)).
Proof.
  intros Hu Hne Hsess Hup Hs Hprep Hm Hcopy.
  pose proof (truthy_opt_true _ u Hu Hne) as Hurl.
  apply Z.leb_gt in Hs. apply String.eqb_neq in Hm.
  split; [|split].
  - unfold treated_as_disconnect. by intros ->.
  - intros Ht.
    assert (prepared (fst (proxy_handler w req))
            = [(status response, outward_headers response)]) as Hprepared.
    { rewrite proxy_handler_prepared, Hurl, Hsess, Hup, Hprep. by rewrite Hs. }
    revert Hprepared.
    destruct (proxy_handler_disconnect w req response e
                Hurl Hsess Hup Hs Hprep Hm Hcopy Ht)
      as (logs & message & Hlogs & ->).
    cbn [fst snd]. intros Hprepared. split; [done|].
    pose proof (request_logs_all_logs req) as Hreq.
    split; [|split; [|done]].
    + rewrite written_app, (all_logs_written _ Hreq). cbn [app].
      change (written (Fetch ?a :: ?t)) with (written t).
      rewrite written_app, (all_logs_written _ Hlogs). cbn [app].
      change (written (Prepare ?c ?h :: ?t)) with (written t).
      rewrite written_app. cbn. by rewrite app_nil_r.
    + intros Hin.
      assert (Forall not_write_eof
                (request_logs req
                 ++ Fetch (fetch_of req false
                             (unquote (default "" (md_get "url" (query req)))))
                 :: logs
                 ++ Prepare (status response) (outward_headers response)
                 :: fst (copy_chunks w 0 (content response)) ++ [LogDebug message]))
        as Hall.
      { apply Forall_app. split; [by apply all_logs_only|].
        constructor; [exact I|]. apply Forall_app. split; [by apply all_logs_only|].
        constructor; [exact I|]. apply Forall_app. split.
        - by apply only_copy_chunks.
        - by repeat constructor. }
      rewrite Forall_forall in Hall. exact (Hall _ Hin).
  - intros Ht He.
    rewrite (stream_body_reraise _ _ _ _ Hcopy Ht). split; [done|].
    rewrite (proxy_handler_outcome w req Hurl), Hsess.
    rewrite fetch_and_relay_outcome, Hup, (relay_outcome_below_400 _ _ _ Hs).
    rewrite relay_send_outcome, Hprep, Hm. cbn [negb].
    rewrite (stream_body_reraise _ _ _ _ Hcopy Ht). cbn [snd].
    by rewrite He.
Qed.

(** *** Runs that differ in their log only *)

Lemma outward_app t1 t2 : outward (t1 ++ t2) = outward t1 ++ outward t2.
Proof. apply List.filter_app. Qed.

Lemma observable_bind {A B : Type} (m1 m2 : M A) (k1 k2 : A -> M B) :
  observable m1 = observable m2 ->
  (forall a, observable (k1 a) = observable (k2 a)) ->
  observable (m1 ≫= k1) = observable (m2 ≫= k2).
Proof.
  unfold observable. intros [= Ht Hr] Hk.
  rewrite !fst_bind, !snd_bind, !outward_app, Ht, Hr.
  destruct (snd m2) as [a|e]; [|done].
  specialize (Hk a). injection Hk as Hkt Hkr. by rewrite Hkt, Hkr.
Qed.

Lemma observable_try_except {A : Type} (m1 m2 : M A) clauses :
  observable m1 = observable m2 ->
  observable (try_except m1 clauses) = observable (try_except m2 clauses).
Proof.
  unfold observable. intros [= Ht Hr].
  by rewrite !fst_try_except, !snd_try_except, !outward_app, Ht, Hr.
Qed.

Lemma observable_logs {A : Type} logs t (r : result A) :
  all_logs logs -> observable (logs ++ t, r) = observable (t, r).
Proof.
  intros Hlogs. unfold observable. cbn [fst snd].
  by rewrite outward_app, (all_logs_outward _ Hlogs).
Qed.

Lemma copy_chunks_with_upstream w response n stream :
  copy_chunks (with_upstream w response) n stream = copy_chunks w n stream.
Proof.
  revert n. induction stream as [|[data|e] rest IH]; intros n; cbn [copy_chunks];
    [done| |done].
  by rewrite IH.
Qed.

Lemma relay_send_with_upstream w response is_head_request response' :
  relay_send (with_upstream w response) is_head_request response'
  = relay_send w is_head_request response'.
Proof.
  unfold relay_send, stream_body. by rewrite copy_chunks_with_upstream.
Qed.

Lemma is_diagnostic_ci a b : ci_eqb a b = true -> is_diagnostic a = is_diagnostic b.
Proof.
  unfold ci_eqb. intros H%String.eqb_eq.
  unfold is_diagnostic, ci_eqb. cbn [existsb diagnostic_headers]. by rewrite H.
Qed.

Lemma ci_get_non_diagnostic name d :
  is_diagnostic name = false ->
  ci_get name (non_diagnostic d) = ci_get name d.
Proof.
  intros Hname. induction d as [|[k v] d IH]; [done|].
  cbn [non_diagnostic List.filter fst]. fold (non_diagnostic d).
  destruct (is_diagnostic k) eqn:Hk; cbn [negb ci_get].
  - destruct (ci_eqb name k) eqn:E; [|done].
    apply is_diagnostic_ci in E. congruence.
  - by rewrite IH.
Qed.

(** The outward headers do not depend on the diagnostic headers. *)
Lemma outward_headers_non_diagnostic r1 r2 :
  non_diagnostic (headers r1) = non_diagnostic (headers r2) ->
  outward_headers r1 = outward_headers r2.
Proof.
  intros H. rewrite !outward_headers_eq. f_equal.
  apply list_omap_ext. apply Forall2_same_length_lookup_2; [done|].
  intros i name name' Hi Hi'. rewrite Hi in Hi'. injection Hi' as <-.
  assert (is_diagnostic name = false) as Hname.
  { apply list_elem_of_lookup_2 in Hi.
    assert (forallb (fun n => negb (is_diagnostic n)) headers_to_forward = true)
      as Hall by (by vm_compute).
    rewrite forallb_forall in Hall. apply list_elem_of_In, Hall in Hi.
    by destruct (is_diagnostic name). }
  by rewrite <- (ci_get_non_diagnostic name (headers r1)),
             <- (ci_get_non_diagnostic name (headers r2)), H.
Qed.

(** C9: two answers of the upstream that differ only in the headers
    [x-cache], [x-cache-lookup] and [age] lead to the same outward
    behaviour: the same requests, status line, headers, body chunks and
    end of body, in the same order, and the same outcome. Only the log
    differs. *)
Theorem diagnostics_do_not_change_outward w req r1 r2 :
  status r1 = status r2 -> reason r1 = reason r2 ->
  content r1 = content r2 ->
  non_diagnostic (headers r1) = non_diagnostic (headers r2) ->
  observable (proxy_handler (with_upstream w r1) req)
  = observable (proxy_handler (with_upstream w r2) req).
Proof.
  intros Hstatus Hreason Hcontent Hheaders.
  apply outward_headers_non_diagnostic in Hheaders.
  destruct (Py.truthy_opt (md_get "url" (query req))) eqn:Hurl.
  2:{ destruct (proxy_handler_without_target (with_upstream w r1) req Hurl)
        as (logs1 & Hlogs1 & ->).
      destruct (proxy_handler_without_target (with_upstream w r2) req Hurl)
        as (logs2 & Hlogs2 & ->).
      unfold observable. cbn [fst snd].
      by rewrite (all_logs_outward _ Hlogs1), (all_logs_outward _ Hlogs2). }
  rewrite !(proxy_handler_with_target _ req Hurl).
  cbn [with_upstream session_raises].
  destruct (session_raises w) as [e|]; [done|]. cbn zeta.
  pose proof (request_logs_all_logs req) as Hreq.
  rewrite !(observable_logs _ _ _ Hreq), <- !surjective_pairing.
  unfold fetch_and_relay. cbn [with_upstream upstream].
  apply observable_try_except, observable_bind; [done|]. intros _.
  destruct (400 <=? status r1) eqn:Hs.
  - rewrite (relay_from_400 _ _ r1 Hs).
    rewrite Hstatus in Hs. rewrite (relay_from_400 _ _ r2 Hs).
    unfold observable. cbn [fst snd]. by rewrite Hstatus, Hreason.
  - destruct (relay_below_400 (with_upstream w r1) (String.eqb (method req) "HEAD")
                r1 Hs) as (logs1 & Hlogs1 & ->).
    rewrite Hstatus in Hs.
    destruct (relay_below_400 (with_upstream w r2) (String.eqb (method req) "HEAD")
                r2 Hs) as (logs2 & Hlogs2 & ->).
    rewrite (observable_logs _ _ _ Hlogs1), (observable_logs _ _ _ Hlogs2).
    rewrite !relay_send_with_upstream.
    unfold relay_send, stream_body. by rewrite Hstatus, Hcontent, Hheaders.
Qed.

(** ** Further properties of the handlers *)

(** *** The chunks a run writes *)

Lemma outward_writes cs : outward (Write <$> cs) = Write <$> cs.
Proof.
  induction cs as [|c cs IH]; [done|]. rewrite fmap_cons.
  change (outward (Write c :: ?t)) with (Write c :: outward t).
  by rewrite IH.
Qed.

Lemma written_writes cs : written (Write <$> cs) = cs.
Proof.
  induction cs as [|c cs IH]; [done|]. rewrite fmap_cons.
  change (written (Write c :: ?t)) with (c :: written t).
  by rewrite IH.
Qed.

Lemma written_outward t : written (outward t) = written t.
Proof.
  unfold written, outward.
  induction t as [|ev t IH]; [done|].
  destruct ev; simpl; first [exact IH | f_equal; exact IH].
Qed.

Lemma fetches_outward t : fetches (outward t) = fetches t.
Proof.
  unfold fetches, outward.
  induction t as [|ev t IH]; [done|].
  destruct ev; simpl; first [exact IH | f_equal; exact IH].
Qed.

(** The body copy writes the chunks of the body in order, and all of them
    when it completes. *)
Lemma copy_chunks_writes w n stream :
  exists cs,
    fst (copy_chunks w n stream) = Write <$> cs
    /\ cs `prefix_of` body_chunks stream
    /\ (snd (copy_chunks w n stream) = Ok tt -> cs = body_chunks stream).
Proof.
  revert n. induction stream as [|[data|e] rest IH]; intros n; cbn [copy_chunks].
  - exists []. by repeat split.
  - rewrite fst_bind, snd_bind.
    destruct (write_raises w n) as [e|]; cbn [await raise emit fst snd app].
    + exists []. split; [done|]. split; [apply prefix_nil | done].
    + destruct (IH (S n)) as (cs & Ht & Hp & Hall).
      exists (data :: cs). rewrite Ht. split; [done|].
      split; [by apply prefix_cons|]. intros H. cbn. by rewrite Hall.
  - exists []. by repeat split.
Qed.

Lemma stream_body_outward w resp response :
  outward (fst (stream_body w resp response))
  = outward (fst (copy_chunks w 0 (content response))).
Proof.
  destruct (snd (copy_chunks w 0 (content response))) as [[]|e] eqn:E.
  - by rewrite (stream_body_completed _ _ _ E).
  - destruct (treated_as_disconnect e) eqn:Ht.
    + destruct (stream_body_disconnect _ resp _ _ E Ht) as (message & ->).
      cbn [fst]. rewrite outward_app. cbn. by rewrite app_nil_r.
    + by rewrite (stream_body_reraise _ _ _ _ E Ht).
Qed.

(** What [relay_send] sends: nothing, or the status line and some first
    chunks of the body, possibly followed by the end of the body. *)
Lemma relay_send_outward w is_head_request response :
  exists cs,
    cs `prefix_of` body_chunks (content response)
    /\ (is_head_request = true -> cs = [])
    /\ (outward (fst (relay_send w is_head_request response)) = []
        \/ outward (fst (relay_send w is_head_request response))
           = Prepare (status response) (outward_headers response) :: (Write <$> cs)
        \/ outward (fst (relay_send w is_head_request response))
           = Prepare (status response) (outward_headers response)
               :: (Write <$> cs) ++ [WriteEof]).
Proof.
  unfold relay_send. rewrite fst_bind.
  destruct (prepare_raises w) as [e|]; cbn [await raise emit fst snd app].
  { exists []. split; [apply prefix_nil|]. split; [done|]. by left. }
  rewrite fst_bind. destruct is_head_request; cbn [negb].
  - exists []. split; [apply prefix_nil|]. split; [done|]. right.
    cbn [mret M_ret fst snd app]. rewrite fst_bind.
    destruct (write_eof_raises w); cbn; [by left | by right].
  - destruct (copy_chunks_writes w 0 (content response)) as (cs & Ht & Hp & _).
    exists cs. split; [done|]. split; [done|]. right.
    change (outward (Prepare ?c ?h :: ?t)) with (Prepare c h :: outward t).
    rewrite outward_app, stream_body_outward, Ht, outward_writes.
    destruct (snd (stream_body _ _ _)) as [[r|]|e].
    + left. cbn. by rewrite app_nil_r.
    + rewrite fst_bind.
      destruct (write_eof_raises w); cbn; [left; by rewrite app_nil_r | by right].
    + left. cbn. by rewrite app_nil_r.
Qed.

Lemma fetch_and_relay_outward w req is_head_request decoded_url :
  outward (fst (fetch_and_relay w req is_head_request decoded_url))
  = Fetch (fetch_of req is_head_request decoded_url)
      :: match upstream w with
         | inl _ => []
         | inr response =>
             if 400 <=? status response then []
             else outward (fst (relay_send w is_head_request response))
         end.
Proof.
  unfold fetch_and_relay. rewrite fst_try_except, fst_bind, !outward_app.
  cbn [emit fst snd].
  change (outward [Fetch ?a]) with [Fetch a]. cbn [app].
  match goal with
  | |- _ :: _ ++ outward ?h = _ => assert (outward h = []) as ->
  end.
  { destruct (snd _) as [r|e]; [done|]. cbn [select_clause].
    destruct (is_Exception e); [|done].
    destruct (on_proxy_error_returns e) as (logs & r & Hlogs & ->).
    by apply all_logs_outward. }
  rewrite app_nil_r. f_equal.
  destruct (upstream w) as [e|response]; [done|].
  destruct (400 <=? status response) eqn:Hs.
  - by rewrite (relay_from_400 _ _ _ Hs).
  - destruct (relay_below_400 w is_head_request response Hs) as (logs & Hlogs & ->).
    cbn [fst]. by rewrite outward_app, (all_logs_outward _ Hlogs).
Qed.

(** The outward effects of a run. *)
Lemma proxy_handler_outward w req :
  outward (fst (proxy_handler w req)) =
  if Py.truthy_opt (md_get "url" (query req)) then
    match session_raises w with
    | Some _ => []
    | None =>
        outward (fst (fetch_and_relay w req (String.eqb (method req) "HEAD")
                        (unquote (default "" (md_get "url" (query req))))))
    end
  else [].
Proof.
  destruct (Py.truthy_opt (md_get "url" (query req))) eqn:Hurl.
  - rewrite (proxy_handler_with_target w req Hurl).
    pose proof (request_logs_all_logs req) as Hlogs.
    destruct (session_raises w) as [e|].
    + destruct (is_Exception e); cbn [fst].
      * rewrite outward_app, (all_logs_outward _ Hlogs). reflexivity.
      * by apply all_logs_outward.
    + cbn [fst]. by rewrite outward_app, (all_logs_outward _ Hlogs).
  - destruct (proxy_handler_without_target w req Hurl) as (logs & Hlogs & ->).
    by apply all_logs_outward.
Qed.

(** X1: every outbound request of [proxy_handler] uses the method HEAD
    exactly when the method of the caller is the string "HEAD", and GET for
    every other method; it is issued for the percent-decoded [url]
    parameter, with a total timeout of 30 and with redirects followed. *)
Theorem outbound_request_parameters w req a :
  a ∈ fetches (fst (proxy_handler w req)) ->
  (f_method a = HEAD <-> method req = "HEAD")
  /\ (f_method a = GET <-> method req <> "HEAD")
  /\ f_url a = unquote (default "" (md_get "url" (query req)))
  /\ f_timeout_total a = 30
  /\ f_allow_redirects a = true.
Proof.
  rewrite proxy_handler_fetches.
  destruct (Py.truthy_opt _); [|by intros ?%elem_of_nil].
  destruct (session_raises w); [by intros ?%elem_of_nil|].
  intros ->%list_elem_of_singleton. cbn [fetch_of f_method f_url f_timeout_total
                                          f_allow_redirects].
  destruct (String.eqb_spec (method req) "HEAD") as [Hm|Hm]; naive_solver.
Qed.

(** X2: the effects of a run of [proxy_handler] other than logging come in
    a fixed order: at most one outbound request (no retry), then at most one
    status line with headers, then body chunks, then at most one end of
    body. No chunk is written before the status line, and nothing follows
    the end of the body. *)
Theorem outward_effects_in_order w req :
  outward (fst (proxy_handler w req)) = []
  \/ (exists a, outward (fst (proxy_handler w req)) = [Fetch a])
  \/ (exists a code hdrs cs,
        outward (fst (proxy_handler w req))
        = Fetch a :: Prepare code hdrs :: (Write <$> cs))
  \/ (exists a code hdrs cs,
        outward (fst (proxy_handler w req))
        = Fetch a :: Prepare code hdrs :: (Write <$> cs) ++ [WriteEof]).
Proof.
  rewrite proxy_handler_outward.
  destruct (Py.truthy_opt _); [|by left].
  destruct (session_raises w); [by left|].
  rewrite fetch_and_relay_outward. right.
  destruct (upstream w) as [e|response]; [left; by eexists|].
  destruct (400 <=? status response); [left; by eexists|].
  destruct (relay_send_outward w (String.eqb (method req) "HEAD") response)
    as (cs & _ & _ & [->|[->| ->]]).
  - left. by eexists.
  - right. left. by do 4 eexists.
  - right. right. by do 4 eexists.
Qed.

(** X3: the chunks a run of [proxy_handler] writes to the caller are, in
    order, the first chunks of the upstream body: nothing is written that
    the upstream did not send, nothing is reordered, repeated or skipped
    before the point where the run stops writing. *)
Theorem written_chunks_are_a_prefix w req response :
  upstream w = inr response ->
  written (fst (proxy_handler w req)) `prefix_of` body_chunks (content response).
Proof.
  intros Hup. rewrite <- written_outward, proxy_handler_outward.
  destruct (Py.truthy_opt _); [|apply prefix_nil].
  destruct (session_raises w); [apply prefix_nil|].
  rewrite fetch_and_relay_outward, Hup.
  change (written (Fetch ?a :: ?t)) with (written t).
  destruct (400 <=? status response); [apply prefix_nil|].
  destruct (relay_send_outward w (String.eqb (method req) "HEAD") response)
    as (cs & Hp & _ & [->|[->| ->]]).
  - apply prefix_nil.
  - change (written (Prepare ?c ?h :: ?t)) with (written t).
    by rewrite written_writes.
  - change (written (Prepare ?c ?h :: ?t)) with (written t).
    rewrite written_app, written_writes. cbn. by rewrite app_nil_r.
Qed.

Lemma copy_chunks_all_written w n cs :
  (forall i, write_raises w i = None) ->
  copy_chunks w n (Chunk <$> cs) = (Write <$> cs, Ok tt).
Proof.
  intros Hw. revert n. induction cs as [|c cs IH]; intros n; [done|].
  rewrite fmap_cons. cbn [copy_chunks]. rewrite Hw, IH. reflexivity.
Qed.

Lemma body_chunks_all cs : body_chunks (Chunk <$> cs) = cs.
Proof.
  induction cs as [|c cs IH]; [done|]. rewrite fmap_cons. cbn [body_chunks].
  by rewrite IH.
Qed.

(** X4: when nothing fails, a request other than HEAD whose upstream answer
    has a status below 400 relays the whole body: after the outbound request
    and the status line, every chunk of the upstream body is written once,
    in order, then the end of the body, and the started response is
    returned. *)
Theorem complete_body_is_relayed w req u response cs :
  md_get "url" (query req) = Some u -> u <> "" ->
  session_raises w = None ->
  upstream w = inr response -> status response < 400 ->
  prepare_raises w = None ->
  method req <> "HEAD" ->
  content response = Chunk <$> cs ->
  (forall i, write_raises w i = None) ->
  write_eof_raises w = None ->
  outward (fst (proxy_handler w req))
  = Fetch (fetch_of req false (unquote u))
      :: Prepare (status response) (outward_headers response)
      :: (Write <$> cs) ++ [WriteEof]
  /\ written (fst (proxy_handler w req)) = cs
  /\ snd (proxy_handler w req)
     = Ok (StreamResponse (status response) (outward_headers response)).
Proof.
  intros Hu Hne Hsess Hup Hs Hprep Hm Hcontent Hw Heof.
  pose proof (truthy_opt_true _ u Hu Hne) as Hurl.
  apply Z.leb_gt in Hs. apply String.eqb_neq in Hm.
  pose proof (copy_chunks_all_written w 0 cs Hw) as Hcopy.
  rewrite <- Hcontent in Hcopy.
  assert (stream_body w (StreamResponse (status response) (outward_headers response))
            response = (Write <$> cs, Ok None)) as Hbody.
  { rewrite stream_body_completed; by rewrite Hcopy. }
  assert (outward (fst (proxy_handler w req))
          = Fetch (fetch_of req false (unquote u))
              :: Prepare (status response) (outward_headers response)
              :: (Write <$> cs) ++ [WriteEof]) as Hout.
  { rewrite proxy_handler_outward, Hurl, Hsess, fetch_and_relay_outward, Hup, Hs.
    rewrite Hm, Hu. cbn [default]. f_equal.
    unfold relay_send. rewrite Hprep. cbn [negb]. rewrite Hbody, Heof.
    cbn [await emit mbind M_bind mret M_ret fst app].
    change (outward (Prepare ?c ?h :: ?t)) with (Prepare c h :: outward t).
    by rewrite outward_app, outward_writes. }
  split; [exact Hout|]. split.
  - rewrite <- written_outward, Hout.
    change (written (Fetch ?a :: Prepare ?c ?h :: ?t)) with (written t).
    rewrite written_app, written_writes. cbn. by rewrite app_nil_r.
  - rewrite (proxy_handler_outcome w req Hurl), Hsess.
    rewrite fetch_and_relay_outcome, Hup, (relay_outcome_below_400 _ _ _ Hs).
    rewrite relay_send_outcome, Hprep, Hm. cbn [negb].
    by rewrite Hbody, Heof.
Qed.

(** *** The responses a run can return *)

Lemma relay_raised_raises w is_head_request response e :
  upstream w = inr response ->
  snd (relay w is_head_request response) = Raised e ->
  raises w e.
Proof.
  intros Hup Hrelay. unfold raises.
  destruct (400 <=? status response) eqn:Hs.
  { by rewrite relay_from_400 in Hrelay. }
  rewrite (relay_outcome_below_400 _ _ _ Hs) in Hrelay.
  apply relay_send_raised in Hrelay as [?|[?|(_ & Hcopy & _)]].
  - right. right. by left.
  - right. right. right. by left.
  - apply copy_chunks_raised in Hcopy as [?|?].
    + right. right. right. right. by left.
    + right. right. right. right. right. by exists response.
Qed.

(** X5: a response returned by [proxy_handler] is one of six: the 400 for a
    missing [url]; the generic 500 of the outer handler; the JSON error that
    mirrors an upstream status of 400 or more; the streaming response with
    an upstream status below 400; the empty 499, for an exception raised by
    the outside whose lower-cased message contains "closing transport",
    "connection reset" or "broken pipe"; the 500 "Proxy request failed" with
    the message of any other such exception and the proxy address or
    "disabled". *)
Theorem returned_response_cases w req r :
  snd (proxy_handler w req) = Ok r ->
  r = json_response [("error", "Missing url parameter")] 400
  \/ r = json_response [("error", "Internal server error")] 500
  \/ (exists response,
        upstream w = inr response /\ 400 <= status response
        /\ r = json_response
                 [("error",
                   "Upstream error: " +:+ Py.str_of_int (status response)
                     +:+ " " +:+ reason response)]
                 (status response))
  \/ (exists response,
        upstream w = inr response /\ status response < 400
        /\ r = StreamResponse (status response) (outward_headers response))
  \/ (exists e,
        raises w e /\ is_Exception e = true
        /\ Py.any_in ["closing transport"; "connection reset"; "broken pipe"]
             (Py.lower (exn_str e)) = true
        /\ r = Response 499)
  \/ (exists e,
        raises w e /\ is_Exception e = true
        /\ Py.any_in ["closing transport"; "connection reset"; "broken pipe"]
             (Py.lower (exn_str e)) = false
        /\ r = json_response
                 [("error", "Proxy request failed");
                  ("details", exn_str e);
                  ("upstreamProxy",
                   if USE_UPSTREAM cfg then UPSTREAM_PROXY_URL cfg else "disabled")]
                 500).
Proof.
  destruct (Py.truthy_opt (md_get "url" (query req))) eqn:Hurl.
  2:{ destruct (proxy_handler_without_target w req Hurl) as (logs & _ & ->).
      intros [= <-]. by left. }
  rewrite (proxy_handler_outcome w req Hurl).
  destruct (session_raises w) as [e|] eqn:Hsess.
  { destruct (is_Exception e); [|done]. intros [= <-]. right. by left. }
  rewrite fetch_and_relay_outcome.
  assert (forall e, raises w e -> is_Exception e = true ->
                    snd (on_proxy_error e) = Ok r ->
                    (exists e, raises w e /\ is_Exception e = true
                       /\ Py.any_in ["closing transport"; "connection reset"; "broken pipe"]
                            (Py.lower (exn_str e)) = true
                       /\ r = Response 499)
                    \/ (exists e, raises w e /\ is_Exception e = true
                          /\ Py.any_in ["closing transport"; "connection reset"; "broken pipe"]
                               (Py.lower (exn_str e)) = false
                          /\ r = json_response
                                   [("error", "Proxy request failed");
                                    ("details", exn_str e);
                                    ("upstreamProxy",
                                     if USE_UPSTREAM cfg then UPSTREAM_PROXY_URL cfg
                                     else "disabled")]
                                   500)) as Herror.
  { intros e Hr He. rewrite on_proxy_error_outcome.
    destruct (Py.any_in _ _) eqn:Hany; intros [= <-];
      [left | right]; by exists e. }
  destruct (upstream w) as [e|response] eqn:Hup.
  - destruct (is_Exception e) eqn:He; [|done]. intros H.
    do 4 right. apply (Herror e); [|done|done]. right. by left.
  - destruct (snd (relay w (String.eqb (method req) "HEAD") response))
      as [r'|e] eqn:Hrelay.
    + intros [= <-]. right. right.
      destruct (400 <=? status response) eqn:Hs.
      * rewrite (relay_from_400 _ _ _ Hs) in Hrelay. injection Hrelay as <-.
        left. exists response. apply Z.leb_le in Hs. by repeat split.
      * rewrite (relay_outcome_below_400 _ _ _ Hs) in Hrelay.
        apply relay_send_returned in Hrelay as ->.
        right. left. exists response. apply Z.leb_gt in Hs. by repeat split.
    + destruct (is_Exception e) eqn:He; [|done]. intros H.
      do 4 right. apply (Herror e); [|done|done].
      by apply (relay_raised_raises w (String.eqb (method req) "HEAD") response).
Qed.

(** X6: when the outbound request itself fails with an instance of
    [Exception], exactly one request has been issued (no retry, no second
    attempt without the proxy), no status line and no chunk is sent, and the
    handler returns the empty 499 when the lower-cased message contains
    "closing transport", "connection reset" or "broken pipe", and otherwise
    the 500 "Proxy request failed" whose [details] is the message and whose
    [upstreamProxy] is the proxy address when [USE_UPSTREAM] is true and
    "disabled" when it is false. *)
Theorem transport_failure_response w req u e :
  md_get "url" (query req) = Some u -> u <> "" ->
  session_raises w = None ->
  upstream w = inl e -> is_Exception e = true ->
  snd (proxy_handler w req)
  = Ok (if Py.any_in ["closing transport"; "connection reset"; "broken pipe"]
             (Py.lower (exn_str e))
        then Response 499
        else json_response
               [("error", "Proxy request failed");
                ("details", exn_str e);
                ("upstreamProxy",
                 if USE_UPSTREAM cfg then UPSTREAM_PROXY_URL cfg else "disabled")]
               500)
  /\ fetches (fst (proxy_handler w req))
     = [fetch_of req (String.eqb (method req) "HEAD") (unquote u)]
  /\ prepared (fst (proxy_handler w req)) = []
  /\ written (fst (proxy_handler w req)) = [].
Proof.
  intros Hu Hne Hsess Hup He.
  pose proof (truthy_opt_true _ u Hu Hne) as Hurl.
  split; [|split; [|split]].
  - rewrite (proxy_handler_outcome w req Hurl), Hsess.
    rewrite fetch_and_relay_outcome, Hup, He. apply on_proxy_error_outcome.
  - by rewrite proxy_handler_fetches, Hurl, Hsess, Hu.
  - by rewrite proxy_handler_prepared, Hurl, Hsess, Hup.
  - rewrite <- written_outward, proxy_handler_outward, Hurl, Hsess.
    by rewrite fetch_and_relay_outward, Hup.
Qed.

(** *** The target shown in the log *)

Lemma string_length_app a b :
  String.length (a +:+ b) = (String.length a + String.length b)%nat.
Proof.
  induction a as [|c a IH]; [done|]. rewrite append_cons. cbn. by rewrite IH.
Qed.

Lemma substring_length_le n s :
  (String.length (String.substring 0 n s) <= n)%nat.
Proof.
  revert s. induction n as [|n IH]; intros [|c s]; cbn; try lia.
  specialize (IH s). lia.
Qed.

(** X7: the target shown in the log line of [proxy_handler] never has more
    than 103 characters: a target of at most 100 characters is shown as it
    is, a longer one is cut after 100 characters and followed by "...", and
    an absent or empty one is shown as "MISSING". *)
Theorem shown_target_bounded target_url :
  (String.length (shown_target target_url) <= 103)%nat
  /\ (forall u,
        target_url = Some u -> u <> "" -> (String.length u <= 100)%nat ->
        shown_target target_url = u)
  /\ (forall u,
        target_url = Some u -> (100 < String.length u)%nat ->
        shown_target target_url = String.substring 0 100 u +:+ "...")
  /\ (target_url = None \/ target_url = Some "" ->
      shown_target target_url = "MISSING").
Proof.
  unfold shown_target. split; [|split; [|split]].
  - destruct target_url as [u|]; [|cbn; lia].
    destruct (Py.truthy u) eqn:Hu; cbn [andb]; [|cbn; lia].
    destruct (100 <? String.length u)%nat eqn:Hlen.
    + rewrite string_length_app. pose proof (substring_length_le 100 u). cbn. lia.
    + apply Nat.ltb_ge in Hlen. lia.
  - intros u -> Hne Hlen.
    assert (Py.truthy u = true) as ->
      by (unfold Py.truthy; by destruct (String.eqb_spec u "")).
    apply Nat.ltb_ge in Hlen. by rewrite Hlen.
  - intros u -> Hlen.
    assert (Py.truthy u = true) as ->.
    { destruct u; [cbn in Hlen; lia | done]. }
    apply Nat.ltb_lt in Hlen. by rewrite Hlen.
  - by intros [-> | ->].
Qed.

(** *** The outward headers as a multidict *)

Lemma forallb_sublist {A : Type} (P : A -> bool) (l1 l2 : list A) :
  l1 `sublist_of` l2 -> forallb P l2 = true -> forallb P l1 = true.
Proof.
  induction 1 as [|x l1 l2 _ IH|x l1 l2 _ IH]; cbn; [done| |].
  - intros [Hx Hl]%andb_prop. by rewrite Hx, IH.
  - intros [Hx Hl]%andb_prop. by apply IH.
Qed.

Lemma ci_distinct_sublist names1 names2 :
  names1 `sublist_of` names2 ->
  ci_distinct names2 = true -> ci_distinct names1 = true.
Proof.
  induction 1 as [|x l1 l2 Hsub IH|x l1 l2 Hsub IH]; cbn; [done| |].
  - intros [Hx Hl]%andb_prop.
    by rewrite (forallb_sublist _ _ _ Hsub Hx), IH.
  - intros [Hx Hl]%andb_prop. by apply IH.
Qed.

Lemma forwarded_names_sublist upstream_headers names :
  (omap (fun name => pair name <$> ci_get name upstream_headers) names).*1
  `sublist_of` names.
Proof.
  induction names as [|name rest IH]; cbn; [constructor|].
  destruct (ci_get name upstream_headers); cbn; by constructor.
Qed.

(** X8: no header name occurs twice, in any letter case, among the headers
    of a relayed response, whatever the upstream sent: repeated upstream
    headers and upstream headers named like the CORS headers leave one entry
    per name. *)
Theorem outward_headers_no_duplicates response :
  ci_distinct (outward_headers response).*1 = true.
Proof.
  rewrite outward_headers_eq, fmap_app.
  apply (ci_distinct_sublist _ (headers_to_forward ++ cors_headers.*1)).
  - apply sublist_app; [apply forwarded_names_sublist | done].
  - by vm_compute.
Qed.

(** X9: [options_handler] answers 200 with the four CORS headers, and each
    of these headers is found, under its name in any letter case resolved to
    the same value, in the headers of every relayed response: the upstream
    cannot replace or remove a CORS header, and the preflight and the
    relayed response agree. *)
Theorem cors_headers_fixed response :
  fst options_handler = 200
  /\ snd options_handler = cors_headers
  /\ forall k v,
       (k, v) ∈ snd options_handler ->
       ci_get k (outward_headers response) = Some v.
Proof.
  split; [done|]. split; [by vm_compute|].
  intros k v Hin.
  assert (snd options_handler = cors_headers) as Heq by (by vm_compute).
  rewrite Heq in Hin. rewrite outward_headers_eq, ci_get_app.
  unfold cors_headers in Hin.
  repeat (apply elem_of_cons in Hin as [[= -> ->]|Hin];
          [rewrite ci_get_forwarded_other by (by vm_compute); by vm_compute|]).
  by apply elem_of_nil in Hin.
Qed.

(** *** The health report *)

Lemma probe_upstream_run w :
  probe_upstream w =
  match session_raises w with
  | Some e => if is_Exception e then ([], Ok "unreachable") else ([], Raised e)
  | None =>
      match upstream w with
      | inl e =>
          if is_Exception e then ([Fetch health_probe], Ok "unreachable")
          else ([Fetch health_probe], Raised e)
      | inr response =>
          ([Fetch health_probe],
           Ok (if status response =? 200 then "connected" else "error"))
      end
  end.
Proof.
  unfold probe_upstream.
  destruct (session_raises w) as [e|]; cbn.
  - by destruct (is_Exception e).
  - destruct (upstream w) as [e|response]; cbn; [|done].
    by destruct (is_Exception e).
Qed.

(** X10: [health_handler] issues no request when [USE_UPSTREAM] is false
    and at most one when it is true; that request is a GET of
    http://httpbin.org/get through the configured proxy address, with
    certificate verification switched off and a total timeout of 5. *)
Theorem health_probe_request PORT timestamp w :
  (USE_UPSTREAM cfg = false -> fst (health_handler PORT timestamp w) = [])
  /\ (length (fetches (fst (health_handler PORT timestamp w))) <= 1)%nat
  /\ (forall a,
        a ∈ fetches (fst (health_handler PORT timestamp w)) ->
        USE_UPSTREAM cfg = true
        /\ f_method a = GET
        /\ f_url a = "http://httpbin.org/get"
        /\ f_proxy a = Some (UPSTREAM_PROXY_URL cfg)
        /\ f_ssl a = ssl_False
        /\ f_timeout_total a = 5).
Proof.
  unfold health_handler. rewrite probe_upstream_run.
  destruct (USE_UPSTREAM cfg); [|cbn; split; [done|]; split; [lia|];
                                  by intros a ?%elem_of_nil].
  split; [done|].
  destruct (session_raises w) as [e|];
    [destruct (is_Exception e)
    |destruct (upstream w) as [e|response]; [destruct (is_Exception e)|]];
    cbn; (split; [lia|]); intros a Hin;
    first [by apply elem_of_nil in Hin
          | apply list_elem_of_singleton in Hin as ->; by repeat split].
Qed.

(** X11: a report returned by [health_handler] has status 200 and is the
    object with [status] "ok", the timestamp, the service name, the port and
    [upstreamProxy], whatever the state of the upstream proxy;
    [upstreamProxy] holds [enabled], the proxy address or null as [url], and
    [status]. The state shows only in that last field, which is "disabled" exactly
    when [USE_UPSTREAM] is false, "connected" exactly when the probe was
    answered with status 200, "error" exactly when it was answered with any
    other status, and "unreachable" exactly when creating the session or the
    probe raised an instance of [Exception]. *)
Theorem health_upstream_status PORT timestamp w r :
  snd (health_handler PORT timestamp w) = Ok r ->
  exists upstream_status,
    r = {| jr_body :=
             JObject
               [ ("status", JString "ok");
                 ("timestamp", JString timestamp);
                 ("service", JString "http-proxy-api-python");
                 ("port", JNumber PORT);
                 ("upstreamProxy",
                  JObject
                    [ ("enabled", JBool (USE_UPSTREAM cfg));
                      ("url",
                       if USE_UPSTREAM cfg then JString (UPSTREAM_PROXY_URL cfg)
                       else JNull);
                      ("status", JString upstream_status) ]) ];
           jr_status := 200 |}
    /\ (upstream_status = "disabled" <-> USE_UPSTREAM cfg = false)
    /\ (upstream_status = "connected" <->
        USE_UPSTREAM cfg = true /\ session_raises w = None
        /\ exists response, upstream w = inr response /\ status response = 200)
    /\ (upstream_status = "error" <->
        USE_UPSTREAM cfg = true /\ session_raises w = None
        /\ exists response, upstream w = inr response /\ status response <> 200)
    /\ (upstream_status = "unreachable" <->
        USE_UPSTREAM cfg = true
        /\ exists e,
             is_Exception e = true
             /\ (session_raises w = Some e
                 \/ (session_raises w = None /\ upstream w = inl e))).
Proof.
  clear unquote.
  unfold health_handler, health_report. rewrite probe_upstream_run.
  destruct (USE_UPSTREAM cfg).
  2:{ cbn. intros [= <-]. exists "disabled". split; [done|]. naive_solver. }
  destruct (session_raises w) as [e|] eqn:Hsess.
  { destruct (is_Exception e) eqn:He; cbn; [|done]. intros [= <-].
    exists "unreachable". split; [done|]. naive_solver. }
  destruct (upstream w) as [e|response] eqn:Hup.
  { destruct (is_Exception e) eqn:He; cbn; [|done]. intros [= <-].
    exists "unreachable". split; [done|]. naive_solver. }
  cbn. intros [= <-].
  destruct (Z.eqb_spec (status response) 200) as [H200|H200].
  - exists "connected". split; [done|]. naive_solver.
  - exists "error". split; [done|]. naive_solver.
Qed.

(** X12: [health_handler] lets no instance of [Exception] through: what it
    propagates was raised while creating the session or by the probe and is
    not an instance of [Exception]; when every exception of the outside is
    an instance of [Exception], it returns a report with status 200. *)
Theorem health_handler_contains_exceptions PORT timestamp w :
  (forall e,
     snd (health_handler PORT timestamp w) = Raised e ->
     is_Exception e = false /\ USE_UPSTREAM cfg = true
     /\ (session_raises w = Some e \/ upstream w = inl e))
  /\ ((forall e, raises w e -> is_Exception e = true) ->
      exists r,
        snd (health_handler PORT timestamp w) = Ok r /\ jr_status r = 200).
Proof.
  clear unquote.
  unfold health_handler. rewrite probe_upstream_run. split.
  - intros e. destruct (USE_UPSTREAM cfg); [|done].
    destruct (session_raises w) as [e'|].
    { destruct (is_Exception e') eqn:He; cbn; [done|]. intros [= <-]. naive_solver. }
    destruct (upstream w) as [e'|response]; [|done].
    destruct (is_Exception e') eqn:He; cbn; [done|]. intros [= <-]. naive_solver.
  - intros Hall. unfold raises in Hall.
    destruct (USE_UPSTREAM cfg); [|cbn; by eexists].
    destruct (session_raises w) as [e|] eqn:Hsess.
    { rewrite (Hall e) by (by left). cbn. by eexists. }
    destruct (upstream w) as [e|response] eqn:Hup; [|cbn; by eexists].
    rewrite (Hall e) by (right; by left). cbn. by eexists.
Qed.

End Handler.

(** ** The configuration read from the environment *)

Lemma use_upstream_off env :
  USE_UPSTREAM (load_config env) = false <->
  exists s, env !! "USE_UPSTREAM" = Some s /\ Py.lower s = "false".
Proof.
  unfold load_config, getenv. cbn [USE_UPSTREAM].
  destruct (env !! "USE_UPSTREAM") as [s|].
  - destruct (String.eqb_spec (Py.lower s) "false") as [H|H]; cbn;
      naive_solver.
  - split; [by vm_compute | by intros (s & ? & _)].
Qed.

(** X13: with the configuration read from the environment, the outbound
    requests of [proxy_handler] are direct exactly when [USE_UPSTREAM] is
    set to "false" in some letter case, with nothing before or after it;
    for every other value, "0", "no" and the empty string among them, and
    when the variable is unset, they go through [UPSTREAM_PROXY_URL], or
    through http://192.168.1.79:3128 when that variable is unset. *)
Theorem proxy_use_from_environment unquote env w req a :
  a ∈ fetches (fst (proxy_handler unquote (load_config env) w req)) ->
  (f_proxy a = None <->
   exists s, env !! "USE_UPSTREAM" = Some s /\ Py.lower s = "false")
  /\ (f_proxy a <> None ->
      f_proxy a
      = Some (match env !! "UPSTREAM_PROXY_URL" with
              | Some address => address
              | None => "http://192.168.1.79:3128"
              end)).
Proof.
  rewrite proxy_handler_fetches.
  destruct (Py.truthy_opt _); [|by intros ?%elem_of_nil].
  destruct (session_raises w); [by intros ?%elem_of_nil|].
  intros ->%list_elem_of_singleton. cbn [fetch_of f_proxy]. unfold proxy.
  rewrite <- use_upstream_off.
  destruct (USE_UPSTREAM (load_config env)) eqn:E; split; done.
Qed.

(** ** The properties on sample runs *)

(** C5 on a request without [url], and on a request whose [url] is percent
    encoded. *)
Lemma missing_url_rejected_witness :
  (md_get "url" (query request_without_url) = None
   /\ snd (proxy_handler percent_decode cfg_upstream (world_ok response_206)
             request_without_url)
      = Ok (json_response [("error", "Missing url parameter")] 400)
   /\ fetches (fst (proxy_handler percent_decode cfg_upstream (world_ok response_206)
                      request_without_url)) = [])
  /\ (md_get "url" (query request_get) = Some sample_target
      /\ sample_target <> ""
      /\ session_raises (world_ok response_206) = None
      /\ fetches (fst (proxy_handler percent_decode cfg_upstream (world_ok response_206)
                         request_get))
         = [fetch_of cfg_upstream request_get false "http://example.com/file.mp4"]).
Proof.
  split.
  - split; [reflexivity|].
    apply (proj1 (missing_url_rejected percent_decode cfg_upstream
                    (world_ok response_206) request_without_url)).
    left. reflexivity.
  - split; [reflexivity|]. split; [discriminate|]. split; [reflexivity|].
    apply (proj2 (missing_url_rejected percent_decode cfg_upstream
                    (world_ok response_206) request_get) sample_target).
    + reflexivity.
    + discriminate.
    + reflexivity.
Defined.

(** C2 as stated fails when [USE_UPSTREAM] is true and the configured proxy
    address is empty: the request is issued with certificate verification
    switched on. *)
Lemma fetch_mode_empty_proxy_url :
  ~ (forall a,
       a ∈ fetches (fst (proxy_handler percent_decode cfg_empty_proxy
                           (world_ok response_206) request_get)) ->
       (USE_UPSTREAM cfg_empty_proxy = true ->
        f_proxy a = Some (UPSTREAM_PROXY_URL cfg_empty_proxy)
        /\ f_ssl a = ssl_False)
       /\ (USE_UPSTREAM cfg_empty_proxy = false ->
           f_proxy a = None /\ f_ssl a = ssl_context)).
Proof.
  intros H.
  destruct (H (fetch_of cfg_empty_proxy request_get false "http://example.com/file.mp4"))
    as [Hup _].
  - rewrite proxy_handler_fetches. apply list_elem_of_here.
  - destruct (Hup eq_refl) as [_ Hssl]. discriminate Hssl.
Qed.

(** C2, amended, through the proxy and direct. *)
Lemma fetch_mode_by_config_witness :
  (fetch_of cfg_upstream request_get false "http://example.com/file.mp4"
     ∈ fetches (fst (proxy_handler percent_decode cfg_upstream
                       (world_ok response_206) request_get))
   /\ USE_UPSTREAM cfg_upstream = true
   /\ UPSTREAM_PROXY_URL cfg_upstream <> ""
   /\ f_proxy (fetch_of cfg_upstream request_get false "http://example.com/file.mp4")
      = Some "http://192.168.1.79:3128"
   /\ f_ssl (fetch_of cfg_upstream request_get false "http://example.com/file.mp4")
      = ssl_False)
  /\ (fetch_of cfg_direct request_head true "http://example.com/file.mp4"
        ∈ fetches (fst (proxy_handler percent_decode cfg_direct
                          (world_ok response_206) request_head))
      /\ USE_UPSTREAM cfg_direct = false
      /\ f_proxy (fetch_of cfg_direct request_head true "http://example.com/file.mp4")
         = None
      /\ f_ssl (fetch_of cfg_direct request_head true "http://example.com/file.mp4")
         = ssl_context).
Proof.
  assert (fetch_of cfg_upstream request_get false "http://example.com/file.mp4"
            ∈ fetches (fst (proxy_handler percent_decode cfg_upstream
                              (world_ok response_206) request_get))) as H1.
  { rewrite proxy_handler_fetches. apply list_elem_of_here. }
  assert (fetch_of cfg_direct request_head true "http://example.com/file.mp4"
            ∈ fetches (fst (proxy_handler percent_decode cfg_direct
                              (world_ok response_206) request_head))) as H2.
  { rewrite proxy_handler_fetches. apply list_elem_of_here. }
  split.
  - split; [exact H1|]. split; [reflexivity|]. split; [discriminate|].
    apply (proj1 (fetch_mode_by_config percent_decode cfg_upstream
                    (world_ok response_206) request_get _ H1)).
    + reflexivity.
    + discriminate.
  - split; [exact H2|]. split; [reflexivity|].
    apply (proj2 (fetch_mode_by_config percent_decode cfg_direct
                    (world_ok response_206) request_head _ H2)).
    reflexivity.
Defined.

(** C3 on a request that sends [user-agent], [REFERER] and [Cookie], and
    on one that sends [range] and no [User-Agent]. *)
Lemma outbound_header_policy_witness :
  (md_get "url" (query request_browser) = Some sample_target
   /\ sample_target <> ""
   /\ session_raises (world_ok response_206) = None
   /\ header_supplied "User-Agent" "VLC/3.0.20" (req_headers request_browser)
   /\ header_supplied "Referer" "https://example.org/watch"
        (req_headers request_browser)
   /\ header_absent "Range" (req_headers request_browser)
   /\ exists a,
        fetches (fst (proxy_handler percent_decode cfg_direct
                        (world_ok response_206) request_browser)) = [a]
        /\ f_headers a !! "User-Agent" = Some "VLC/3.0.20"
        /\ f_headers a !! "Referer" = Some "https://example.org/watch"
        /\ f_headers a !! "Range" = None
        /\ f_headers a !! "Cache-Control" = None
        /\ f_headers a !! "Cookie" = None
        /\ f_headers a !! "Accept" = None)
  /\ (header_absent "User-Agent" (req_headers request_get)
      /\ header_supplied "Range" "bytes=0-1023" (req_headers request_get)
      /\ exists a,
           fetches (fst (proxy_handler percent_decode cfg_upstream
                           (world_ok response_206) request_get)) = [a]
           /\ f_headers a !! "User-Agent"
              = Some "Mozilla/5.0 (compatible; HTTPProxy/1.0)"
           /\ f_headers a !! "Cache-Control" = Some "max-age=3600"
           /\ f_headers a !! "Range" = Some "bytes=0-1023").
Proof.
  assert (header_supplied "User-Agent" "VLC/3.0.20" (req_headers request_browser))
    as Hagent.
  { exists [("Accept", "*/*")], "user-agent",
      [ ("REFERER", "https://example.org/watch"); ("User-Agent", "second");
        ("Cookie", "session=1") ].
    split; [reflexivity|]. split; [reflexivity|].
    intros k' v' Hin. apply list_elem_of_singleton in Hin.
    injection Hin as -> ->. discriminate. }
  assert (header_supplied "Referer" "https://example.org/watch"
            (req_headers request_browser)) as Hreferer.
  { exists [("Accept", "*/*"); ("user-agent", "VLC/3.0.20")], "REFERER",
      [("User-Agent", "second"); ("Cookie", "session=1")].
    split; [reflexivity|]. split; [reflexivity|].
    intros k' v' Hin.
    repeat (apply elem_of_cons in Hin as [Hin|Hin];
            [injection Hin as -> ->; discriminate|]).
    by apply elem_of_nil in Hin. }
  assert (header_absent "Range" (req_headers request_browser)) as Hrange.
  { intros k v Hin.
    repeat (apply elem_of_cons in Hin as [Hin|Hin];
            [injection Hin as -> ->; discriminate|]).
    by apply elem_of_nil in Hin. }
  assert (header_absent "User-Agent" (req_headers request_get)) as Hnoagent.
  { intros k v Hin.
    repeat (apply elem_of_cons in Hin as [Hin|Hin];
            [injection Hin as -> ->; discriminate|]).
    by apply elem_of_nil in Hin. }
  assert (header_supplied "Range" "bytes=0-1023" (req_headers request_get))
    as Hsent.
  { exists [], "range", [("Cookie", "session=1")].
    split; [reflexivity|]. split; [reflexivity|].
    intros k' v' Hin. by apply elem_of_nil in Hin. }
  split.
  - split; [reflexivity|]. split; [discriminate|]. split; [reflexivity|].
    split; [exact Hagent|]. split; [exact Hreferer|]. split; [exact Hrange|].
    destruct (outbound_header_policy percent_decode cfg_direct
                (world_ok response_206) request_browser sample_target)
      as (a & Ha & Hua & _ & Hcache & _ & Hnorange & Href & _ & Hother);
      [reflexivity | discriminate | reflexivity |].
    exists a. split; [exact Ha|].
    split; [exact (Hua _ Hagent)|]. split; [exact (Href _ Hreferer)|].
    split; [exact (Hnorange Hrange)|]. split; [exact Hcache|].
    split; apply Hother; discriminate.
  - split; [exact Hnoagent|]. split; [exact Hsent|].
    destruct (outbound_header_policy percent_decode cfg_upstream
                (world_ok response_206) request_get sample_target)
      as (a & Ha & _ & Hdefault & Hcache & Hrng & _);
      [reflexivity | discriminate | reflexivity |].
    exists a. split; [exact Ha|].
    split; [exact (Hdefault Hnoagent)|]. split; [exact Hcache | exact (Hrng _ Hsent)].
Defined.


(** C4 on a 404 answer. *)
Lemma upstream_error_mirrored_witness :
  md_get "url" (query request_get) = Some sample_target
  /\ sample_target <> ""
  /\ session_raises (world_ok response_404) = None
  /\ upstream (world_ok response_404) = inr response_404
  /\ 400 <= status response_404
  /\ snd (proxy_handler percent_decode cfg_upstream (world_ok response_404) request_get)
     = Ok (json_response [("error", "Upstream error: 404 Not Found")] 404)
  /\ written (fst (proxy_handler percent_decode cfg_upstream (world_ok response_404)
                     request_get)) = [].
Proof.
  split; [reflexivity|]. split; [discriminate|]. split; [reflexivity|].
  split; [reflexivity|]. split; [discriminate|].
  destruct (upstream_error_mirrored percent_decode cfg_upstream
              (world_ok response_404) request_get sample_target response_404)
    as (Hrun & _ & _ & Hwritten & _);
    [reflexivity | discriminate | reflexivity | reflexivity | discriminate |].
  split; [exact Hrun | exact Hwritten].
Defined.

(** C7 on a HEAD request whose upstream answer carries a body. *)
Lemma head_writes_no_body_witness :
  method request_head = "HEAD"
  /\ written (fst (proxy_handler percent_decode cfg_direct (world_ok response_206)
                     request_head)) = []
  /\ prepared (fst (proxy_handler percent_decode cfg_direct (world_ok response_206)
                      request_head))
     = [(206, outward_headers response_206)]
  /\ ci_get "content-length" (outward_headers response_206) = Some "1024".
Proof.
  split; [reflexivity|].
  destruct (head_writes_no_body percent_decode cfg_direct (world_ok response_206)
              request_head eq_refl) as [Hwritten Hheaders].
  split; [exact Hwritten|].
  destruct (Hheaders sample_target response_206) as [Hprepared Hforward];
    [reflexivity | discriminate | reflexivity | reflexivity | reflexivity
    | reflexivity |].
  split; [exact Hprepared|].
  apply Hforward; [|reflexivity].
  apply list_elem_of_further, list_elem_of_here.
Defined.

(** C9 on two answers, one with [X-Cache], one with [Age] and
    [X-Cache-Lookup]. *)
Lemma diagnostics_do_not_change_outward_witness :
  status response_206 = status response_206_miss
  /\ reason response_206 = reason response_206_miss
  /\ content response_206 = content response_206_miss
  /\ non_diagnostic (headers response_206) = non_diagnostic (headers response_206_miss)
  /\ headers response_206 <> headers response_206_miss
  /\ observable (proxy_handler percent_decode cfg_upstream
                   (with_upstream (world_ok response_404) response_206) request_get)
     = observable (proxy_handler percent_decode cfg_upstream
                     (with_upstream (world_ok response_404) response_206_miss)
                     request_get).
Proof.
  split; [reflexivity|]. split; [reflexivity|]. split; [reflexivity|].
  split; [reflexivity|]. split; [discriminate|].
  apply (diagnostics_do_not_change_outward percent_decode cfg_upstream
           (world_ok response_404) request_get response_206 response_206_miss);
    reflexivity.
Defined.

(** C6 as stated fails for an exception that is none of the three
    disconnection classes and whose message mentions a connection: the
    upstream closes its side while the body is read, and the body copy
    returns the started response instead of re-raising. *)
Lemma body_copy_swallows_connection_closed :
  snd (copy_chunks (world_ok response_cut_short) 0 (content response_cut_short))
  = Raised connection_closed
  /\ is_disconnect connection_closed = false
  /\ snd (stream_body (world_ok response_cut_short)
            (StreamResponse 200 (outward_headers response_cut_short))
            response_cut_short)
     <> Raised connection_closed
  /\ snd (proxy_handler percent_decode cfg_upstream (world_ok response_cut_short)
            request_get)
     = Ok (StreamResponse 200 (outward_headers response_cut_short)).
Proof.
  split; [reflexivity|]. split; [reflexivity|].
  split; [vm_compute; discriminate|].
  vm_compute. reflexivity.
Qed.

(** C6, amended, when the caller goes away after the first chunk, and when
    the upstream payload is incomplete. *)
Lemma body_copy_disconnect_witness :
  (md_get "url" (query request_get) = Some sample_target
   /\ sample_target <> ""
   /\ session_raises world_caller_gone = None
   /\ upstream world_caller_gone = inr response_206
   /\ status response_206 < 400
   /\ prepare_raises world_caller_gone = None
   /\ method request_get <> "HEAD"
   /\ snd (copy_chunks world_caller_gone 0 (content response_206))
      = Raised connection_reset
   /\ treated_as_disconnect connection_reset = true
   /\ snd (proxy_handler percent_decode cfg_upstream world_caller_gone request_get)
      = Ok (StreamResponse 206 (outward_headers response_206))
   /\ written (fst (proxy_handler percent_decode cfg_upstream world_caller_gone
                      request_get))
      = [[Byte.x00; Byte.x01]])
  /\ (upstream (world_ok response_bad_payload) = inr response_bad_payload
      /\ snd (copy_chunks (world_ok response_bad_payload) 0
                (content response_bad_payload))
         = Raised payload_error
      /\ treated_as_disconnect payload_error = false
      /\ is_Exception payload_error = true
      /\ snd (proxy_handler percent_decode cfg_upstream
                (world_ok response_bad_payload) request_get)
         = Ok (json_response
                 [ ("error", "Proxy request failed");
                   ("details", "Response payload is not completed");
                   ("upstreamProxy", "http://192.168.1.79:3128") ]
                 500)).
Proof.
  split.
  - do 7 (split; [first [reflexivity | discriminate]|]).
    split; [reflexivity|]. split; [reflexivity|].
    destruct (body_copy_disconnect percent_decode cfg_upstream world_caller_gone
                request_get sample_target response_206 connection_reset)
      as (_ & Hgone & _);
      [reflexivity | discriminate | reflexivity | reflexivity | reflexivity
      | reflexivity | discriminate | reflexivity |].
    destruct (Hgone eq_refl) as (Hrun & Hwritten & _ & _).
    split; [exact Hrun | exact Hwritten].
  - split; [reflexivity|]. split; [reflexivity|]. split; [reflexivity|].
    split; [reflexivity|].
    destruct (body_copy_disconnect percent_decode cfg_upstream
                (world_ok response_bad_payload) request_get sample_target
                response_bad_payload payload_error)
      as (_ & _ & Hother);
      [reflexivity | discriminate | reflexivity | reflexivity | reflexivity
      | reflexivity | discriminate | reflexivity |].
    destruct (Hother eq_refl eq_refl) as [_ Hrun].
    exact Hrun.
Defined.



(** X1 on a HEAD request. *)
Lemma outbound_request_parameters_witness :
  fetch_of cfg_direct request_head true "http://example.com/file.mp4"
    ∈ fetches (fst (proxy_handler percent_decode cfg_direct (world_ok response_206)
                      request_head))
  /\ method request_head = "HEAD"
  /\ f_method (fetch_of cfg_direct request_head true "http://example.com/file.mp4")
     = HEAD
  /\ f_timeout_total (fetch_of cfg_direct request_head true "http://example.com/file.mp4")
     = 30.
Proof.
  assert (fetch_of cfg_direct request_head true "http://example.com/file.mp4"
            ∈ fetches (fst (proxy_handler percent_decode cfg_direct
                              (world_ok response_206) request_head))) as Hin.
  { rewrite proxy_handler_fetches. apply list_elem_of_here. }
  split; [exact Hin|]. split; [reflexivity|].
  destruct (outbound_request_parameters percent_decode cfg_direct
              (world_ok response_206) request_head _ Hin)
    as (Hhead & _ & _ & Htimeout & _).
  split; [apply Hhead; reflexivity | exact Htimeout].
Defined.

(** X3 when the caller goes away after the first chunk. *)
Lemma written_chunks_are_a_prefix_witness :
  upstream world_caller_gone = inr response_206
  /\ written (fst (proxy_handler percent_decode cfg_upstream world_caller_gone
                     request_get))
     `prefix_of` [[Byte.x00; Byte.x01]; [Byte.x02]; [Byte.x03]].
Proof.
  split; [reflexivity|].
  exact (written_chunks_are_a_prefix percent_decode cfg_upstream world_caller_gone
           request_get response_206 eq_refl).
Defined.

(** X4 on a 206 answer of three chunks. *)
Lemma complete_body_is_relayed_witness :
  md_get "url" (query request_get) = Some sample_target
  /\ sample_target <> ""
  /\ session_raises (world_ok response_206) = None
  /\ upstream (world_ok response_206) = inr response_206
  /\ status response_206 < 400
  /\ prepare_raises (world_ok response_206) = None
  /\ method request_get <> "HEAD"
  /\ content response_206 = Chunk <$> [[Byte.x00; Byte.x01]; [Byte.x02]; [Byte.x03]]
  /\ (forall i, write_raises (world_ok response_206) i = None)
  /\ write_eof_raises (world_ok response_206) = None
  /\ written (fst (proxy_handler percent_decode cfg_upstream (world_ok response_206)
                     request_get))
     = [[Byte.x00; Byte.x01]; [Byte.x02]; [Byte.x03]]
  /\ snd (proxy_handler percent_decode cfg_upstream (world_ok response_206)
            request_get)
     = Ok (StreamResponse 206 (outward_headers response_206)).
Proof.
  do 7 (split; [first [reflexivity | discriminate]|]).
  split; [reflexivity|]. split; [intros i; reflexivity|]. split; [reflexivity|].
  destruct (complete_body_is_relayed percent_decode cfg_upstream
              (world_ok response_206) request_get sample_target response_206
              [[Byte.x00; Byte.x01]; [Byte.x02]; [Byte.x03]])
    as (_ & Hwritten & Hrun);
    [reflexivity | discriminate | reflexivity | reflexivity | reflexivity
    | reflexivity | discriminate | reflexivity | intros i; reflexivity
    | reflexivity |].
  split; [exact Hwritten | exact Hrun].
Defined.

(** X5 and X6 when the upstream proxy does not answer. *)
Lemma transport_failure_response_witness :
  md_get "url" (query request_get) = Some sample_target
  /\ sample_target <> ""
  /\ session_raises world_proxy_unreachable = None
  /\ upstream world_proxy_unreachable = inl proxy_unreachable
  /\ is_Exception proxy_unreachable = true
  /\ snd (proxy_handler percent_decode cfg_upstream world_proxy_unreachable
            request_get)
     = Ok (json_response
             [ ("error", "Proxy request failed");
               ("details", "Cannot connect to host 192.168.1.79:3128 ssl:False");
               ("upstreamProxy", "http://192.168.1.79:3128") ]
             500)
  /\ fetches (fst (proxy_handler percent_decode cfg_upstream world_proxy_unreachable
                     request_get))
     = [fetch_of cfg_upstream request_get false "http://example.com/file.mp4"].
Proof.
  split; [reflexivity|]. split; [discriminate|]. split; [reflexivity|].
  split; [reflexivity|]. split; [reflexivity|].
  destruct (transport_failure_response percent_decode cfg_upstream
              world_proxy_unreachable request_get sample_target proxy_unreachable)
    as (Hrun & Hfetches & _);
    [reflexivity | discriminate | reflexivity | reflexivity | reflexivity |].
  split; [exact Hrun | exact Hfetches].
Defined.

Lemma returned_response_cases_witness :
  snd (proxy_handler percent_decode cfg_direct world_proxy_unreachable request_get)
  = Ok (json_response
          [ ("error", "Proxy request failed");
            ("details", "Cannot connect to host 192.168.1.79:3128 ssl:False");
            ("upstreamProxy", "disabled") ]
          500)
  /\ exists e,
       raises world_proxy_unreachable e /\ is_Exception e = true
       /\ exn_str e = "Cannot connect to host 192.168.1.79:3128 ssl:False".
Proof.
  assert (snd (proxy_handler percent_decode cfg_direct world_proxy_unreachable
                 request_get)
          = Ok (json_response
                  [ ("error", "Proxy request failed");
                    ("details", "Cannot connect to host 192.168.1.79:3128 ssl:False");
                    ("upstreamProxy", "disabled") ]
                  500)) as Hrun by (vm_compute; reflexivity).
  split; [exact Hrun|].
  destruct (returned_response_cases percent_decode cfg_direct world_proxy_unreachable
              request_get _ Hrun)
    as [H|[H|[(r & _ & _ & H)|[(r & _ & _ & H)|[(e & _ & _ & _ & H)
       |(e & Hraises & He & _ & H)]]]]];
    try discriminate H.
  exists e. split; [exact Hraises|]. split; [exact He|].
  injection H as H. symmetry. exact H.
Defined.

(** X7 on a short target. *)
Lemma shown_target_bounded_witness :
  sample_target <> ""
  /\ (String.length sample_target <= 100)%nat
  /\ shown_target (Some sample_target) = sample_target
  /\ shown_target (Some "") = "MISSING".
Proof.
  split; [discriminate|].
  assert (String.length sample_target <= 100)%nat as Hlen
    by (apply Nat.leb_le; reflexivity).
  split; [exact Hlen|].
  destruct (shown_target_bounded (Some sample_target)) as (_ & Hshort & _ & _).
  destruct (shown_target_bounded (Some "")) as (_ & _ & _ & Hmissing).
  split.
  - apply Hshort; [reflexivity | discriminate | exact Hlen].
  - apply Hmissing. right. reflexivity.
Defined.

(** X9 when the upstream sets [Access-Control-Allow-Origin] itself. *)
Lemma cors_headers_fixed_witness :
  ("Access-Control-Allow-Origin", "*") ∈ snd options_handler
  /\ ci_get "Access-Control-Allow-Origin" (headers response_repeated_headers)
     = Some "https://example.org"
  /\ ci_get "access-control-allow-origin" (outward_headers response_repeated_headers)
     = Some "*".
Proof.
  assert (("Access-Control-Allow-Origin", "*") ∈ snd options_handler) as Hin
    by apply list_elem_of_here.
  split; [exact Hin|]. split; [reflexivity|].
  destruct (cors_headers_fixed response_repeated_headers) as (_ & _ & Hfixed).
  exact (Hfixed _ _ Hin).
Defined.

(** X10 with the upstream proxy switched off, and switched on. *)
Lemma health_probe_request_witness :
  (USE_UPSTREAM cfg_direct = false
   /\ fst (health_handler cfg_direct 8080 "2026-01-01T00:00:00" (world_ok response_200))
      = [])
  /\ (health_probe cfg_upstream
        ∈ fetches (fst (health_handler cfg_upstream 8080 "2026-01-01T00:00:00"
                          (world_ok response_200)))
      /\ f_proxy (health_probe cfg_upstream) = Some "http://192.168.1.79:3128"
      /\ f_ssl (health_probe cfg_upstream) = ssl_False
      /\ f_timeout_total (health_probe cfg_upstream) = 5).
Proof.
  split.
  - split; [reflexivity|].
    exact (proj1 (health_probe_request cfg_direct 8080 "2026-01-01T00:00:00"
                    (world_ok response_200)) eq_refl).
  - assert (health_probe cfg_upstream
              ∈ fetches (fst (health_handler cfg_upstream 8080 "2026-01-01T00:00:00"
                                (world_ok response_200)))) as Hin
      by apply list_elem_of_here.
    split; [exact Hin|].
    destruct (proj2 (proj2 (health_probe_request cfg_upstream 8080
                              "2026-01-01T00:00:00" (world_ok response_200)))
                _ Hin)
      as (_ & _ & _ & Hproxy & Hssl & Htimeout).
    split; [exact Hproxy|]. split; [exact Hssl | exact Htimeout].
Defined.

(** X11 when the probe is answered with 200, and when the upstream proxy
    is switched off. *)
Lemma health_upstream_status_witness :
  (status response_200 = 200
   /\ snd (health_handler cfg_upstream 8080 "2026-01-01T00:00:00"
             (world_ok response_200))
      = Ok {| jr_body :=
                JObject
                  [ ("status", JString "ok");
                    ("timestamp", JString "2026-01-01T00:00:00");
                    ("service", JString "http-proxy-api-python");
                    ("port", JNumber 8080);
                    ("upstreamProxy",
                     JObject
                       [ ("enabled", JBool true);
                         ("url", JString "http://192.168.1.79:3128");
                         ("status", JString "connected") ]) ];
              jr_status := 200 |})
  /\ (USE_UPSTREAM cfg_direct = false
      /\ snd (health_handler cfg_direct 8080 "2026-01-01T00:00:00"
                (world_ok response_404))
         = Ok {| jr_body :=
                   JObject
                     [ ("status", JString "ok");
                       ("timestamp", JString "2026-01-01T00:00:00");
                       ("service", JString "http-proxy-api-python");
                       ("port", JNumber 8080);
                       ("upstreamProxy",
                        JObject
                          [ ("enabled", JBool false);
                            ("url", JNull);
                            ("status", JString "disabled") ]) ];
                 jr_status := 200 |}).
Proof.
  split.
  - split; [reflexivity|].
    destruct (snd (health_handler cfg_upstream 8080 "2026-01-01T00:00:00"
                     (world_ok response_200))) as [r|e] eqn:Hrun;
      [|discriminate Hrun].
    destruct (health_upstream_status cfg_upstream 8080 "2026-01-01T00:00:00"
                (world_ok response_200) r Hrun)
      as (upstream_status & -> & _ & Hconnected & _).
    assert (upstream_status = "connected") as ->.
    { apply Hconnected. split; [reflexivity|]. split; [reflexivity|].
      exists response_200. split; reflexivity. }
    reflexivity.
  - split; [reflexivity|].
    destruct (snd (health_handler cfg_direct 8080 "2026-01-01T00:00:00"
                     (world_ok response_404))) as [r|e] eqn:Hrun;
      [|discriminate Hrun].
    destruct (health_upstream_status cfg_direct 8080 "2026-01-01T00:00:00"
                (world_ok response_404) r Hrun)
      as (upstream_status & -> & Hdisabled & _).
    assert (upstream_status = "disabled") as ->.
    { apply Hdisabled. reflexivity. }
    reflexivity.
Defined.

(** X12 when the upstream proxy does not answer, and when the task is
    cancelled during the probe. *)
Lemma health_handler_contains_exceptions_witness :
  ((forall e, raises world_proxy_unreachable e -> is_Exception e = true)
   /\ exists r,
        snd (health_handler cfg_upstream 8080 "2026-01-01T00:00:00"
               world_proxy_unreachable) = Ok r
        /\ jr_status r = 200)
  /\ (snd (health_handler cfg_upstream 8080 "2026-01-01T00:00:00" world_cancelled)
      = Raised cancelled
      /\ is_Exception cancelled = false).
Proof.
  assert (forall e, raises world_proxy_unreachable e -> is_Exception e = true) as Hall.
  { intros e [H|[H|[H|[H|[[i H]|(response & H & _)]]]]]; try discriminate H.
    injection H as <-. reflexivity. }
  split.
  - split; [exact Hall|].
    exact (proj2 (health_handler_contains_exceptions cfg_upstream 8080
                    "2026-01-01T00:00:00" world_proxy_unreachable) Hall).
  - split; [reflexivity|].
    exact (proj1 (proj1 (health_handler_contains_exceptions cfg_upstream 8080
                           "2026-01-01T00:00:00" world_cancelled)
                    cancelled eq_refl)).
Defined.

(** X13 with [USE_UPSTREAM=False] in the environment. *)
Lemma proxy_use_from_environment_witness :
  fetch_of (load_config env_direct) request_get false "http://example.com/file.mp4"
    ∈ fetches (fst (proxy_handler percent_decode (load_config env_direct)
                      (world_ok response_206) request_get))
  /\ env_direct !! "USE_UPSTREAM" = Some "False"
  /\ f_proxy (fetch_of (load_config env_direct) request_get false
                "http://example.com/file.mp4")
     = None.
Proof.
  assert (fetch_of (load_config env_direct) request_get false
            "http://example.com/file.mp4"
            ∈ fetches (fst (proxy_handler percent_decode (load_config env_direct)
                              (world_ok response_206) request_get))) as Hin.
  { rewrite proxy_handler_fetches. apply list_elem_of_here. }
  split; [exact Hin|]. split; [reflexivity|].
  apply (proj1 (proxy_use_from_environment percent_decode env_direct
                  (world_ok response_206) request_get _ Hin)).
  exists "False". split; reflexivity.
Defined.
